(** * Weather-prediction data transfer: download, upload to S3, clean up

    A shallow embedding of [download_upload_weather_prediction_data_to_s3.py]
    and the properties of its period formatter, retry loops, manifest reader
    and per-record pipeline. *)

From Stdlib Require Import String Ascii ZArith NArith List Bool Lia.
Import ListNotations.
Open Scope Z_scope.

(** ** Python strings

    A Python [str] is a sequence of Unicode code points.  Literals of the
    source are written as UTF-8 string literals and decoded with [py]. *)

Definition codepoint := N.
Definition str := list codepoint.

Fixpoint utf8_decode (bs : list N) : str :=
  match bs with
  | [] => []
  | b0 :: t0 =>
    if (b0 <? 128)%N then b0 :: utf8_decode t0
    else if (b0 <? 224)%N then
      match t0 with
      | b1 :: t1 => ((b0 - 192) * 64 + (b1 - 128))%N :: utf8_decode t1
      | [] => [b0]
      end
    else if (b0 <? 240)%N then
      match t0 with
      | b1 :: b2 :: t2 =>
        ((b0 - 224) * 4096 + (b1 - 128) * 64 + (b2 - 128))%N :: utf8_decode t2
      | _ => [b0]
      end
    else
      match t0 with
      | b1 :: b2 :: b3 :: t3 =>
        ((b0 - 240) * 262144 + (b1 - 128) * 4096 + (b2 - 128) * 64 + (b3 - 128))%N
          :: utf8_decode t3
      | _ => [b0]
      end
  end.

Definition py (s : string) : str :=
  utf8_decode (map N_of_ascii (list_ascii_of_string s)).

Definition str_eqb (a b : str) : bool :=
  if list_eq_dec N.eq_dec a b then true else false.

(** ** Unicode decimal digits

    In a [str] pattern, [\d] matches every character of category Nd, and
    [int()] reads each such character by its decimal value.  Every Nd block is
    ten consecutive code points for 0..9; [decimal_zeros] lists the code point
    of the zero of each block (Unicode 14). *)

Definition decimal_zeros : list N :=
  [48; 1632; 1776; 1984; 2406; 2534; 2662; 2790; 2918; 3046; 3174; 3302; 3430;
   3558; 3664; 3792; 3872; 4160; 4240; 6112; 6160; 6470; 6608; 6784; 6800;
   6992; 7088; 7232; 7248; 42528; 43216; 43264; 43472; 43504; 43600; 44016;
   65296; 66720; 68912; 69734; 69872; 69942; 70096; 70384; 70736; 70864;
   71248; 71360; 71472; 71904; 72016; 72784; 73040; 73120; 92768; 92864;
   93008; 120782; 120792; 120802; 120812; 120822; 123200; 123632; 125264;
   130032]%N.

Definition decimal_value (c : codepoint) : option Z :=
  match find (fun z => (z <=? c)%N && (c <? z + 10)%N) decimal_zeros with
  | Some z => Some (Z.of_N (c - z))
  | None => None
  end.

Definition is_decimal (c : codepoint) : bool :=
  match decimal_value c with Some _ => true | None => false end.

(** ** The pattern [(\d{4})年(\d{1,2})月(\d{1,2})日] *)

Definition nen : codepoint := 24180%N.    (* U+5E74 *)
Definition gatsu : codepoint := 26376%N.  (* U+6708 *)
Definition nichi : codepoint := 26085%N.  (* U+65E5 *)

Definition groups : Type := (str * str * str)%type.

(** [\d{4}] *)
Definition digits4 (s : str) : option (str * str) :=
  match s with
  | a :: b :: c :: d :: rest =>
    if is_decimal a && is_decimal b && is_decimal c && is_decimal d
    then Some ([a; b; c; d], rest) else None
  | _ => None
  end.

(** A literal character. *)
Definition literal (c : codepoint) (s : str) : option str :=
  match s with
  | x :: rest => if (x =? c)%N then Some rest else None
  | [] => None
  end.

(** [\d{1,2}] followed by the rest of the pattern [k]: greedy, so two digits
    are tried first and one digit only when the rest fails after two. *)
Definition digits12 {A : Type} (s : str) (k : str -> str -> option A) : option A :=
  match s with
  | a :: rest =>
    if is_decimal a then
      match rest with
      | b :: rest' =>
        if is_decimal b then
          match k [a; b] rest' with
          | Some r => Some r
          | None => k [a] rest
          end
        else k [a] rest
      | [] => k [a] rest
      end
    else None
  | [] => None
  end.

(** A match of the whole pattern at the head of [s]: the three groups and the
    number of characters consumed. *)
Definition match_here (s : str) : option (groups * nat) :=
  match digits4 s with
  | None => None
  | Some (y, s1) =>
    match literal nen s1 with
    | None => None
    | Some s2 =>
      digits12 s2 (fun m s3 =>
        match literal gatsu s3 with
        | None => None
        | Some s4 =>
          digits12 s4 (fun d s5 =>
            match literal nichi s5 with
            | None => None
            | Some _ => Some ((y, m, d), (7 + length m + length d)%nat)
            end)
        end)
    end
  end.

(** [re.findall]: leftmost matches, scanning left to right; after a match the
    scan resumes behind it.  [skip] counts the characters of the last match
    still to be passed over. *)
Fixpoint findall_from (skip : nat) (s : str) : list groups :=
  match s with
  | [] => []
  | _ :: rest =>
    match skip with
    | S k => findall_from k rest
    | O =>
      match match_here s with
      | Some (g, n) => g :: findall_from (pred n) rest
      | None => findall_from O rest
      end
    end
  end.

Definition re_findall (s : str) : list groups := findall_from O s.

(** ** [int()] on a captured group, [datetime(y, m, d)] and [strftime] *)

Fixpoint int_digits (acc : Z) (s : str) : option Z :=
  match s with
  | [] => Some acc
  | c :: rest =>
    match decimal_value c with
    | Some d => int_digits (10 * acc + d) rest
    | None => None
    end
  end.

(** [int(s)] for the strings the pattern captures (digits only); [None] stands
    for the [ValueError] raised on anything else. *)
Definition py_int (s : str) : option Z :=
  match s with
  | [] => None
  | _ => int_digits 0 s
  end.

Record datetime : Type := mk_datetime { year : Z; month : Z; day : Z }.

Definition is_leap (y : Z) : bool :=
  (y mod 4 =? 0) && (negb (y mod 100 =? 0) || (y mod 400 =? 0)).

Definition days_in_month (y m : Z) : Z :=
  if m =? 2 then (if is_leap y then 29 else 28)
  else if (m =? 4) || (m =? 6) || (m =? 9) || (m =? 11) then 30
  else 31.

(** The constructor [datetime(y, m, d)]; [None] stands for its [ValueError]. *)
Definition new_datetime (y m d : Z) : option datetime :=
  if (1 <=? y) && (y <=? 9999) && (1 <=? m) && (m <=? 12)
     && (1 <=? d) && (d <=? days_in_month y m)
  then Some (mk_datetime y m d) else None.

Definition digit_char (d : Z) : codepoint := Z.to_N (48 + d).

Definition zfill2 (n : Z) : str := [digit_char (n / 10); digit_char (n mod 10)].

Definition zfill4 (n : Z) : str :=
  [digit_char (n / 1000); digit_char (n / 100 mod 10);
   digit_char (n / 10 mod 10); digit_char (n mod 10)].

Fixpoint lstrip_zeros (s : str) : str :=
  match s with
  | c :: (_ :: _) as rest => if (c =? 48)%N then lstrip_zeros rest else s
  | _ => s
  end.

(** [strftime('%Y%m%d')].  [%m] and [%d] are always two digits.  [%Y] is handed
    to the C library: most pad the year to four digits, glibc prints a year
    below 1000 without leading zeros.  [pads_year] says which one runs. *)
Definition strftime_Y (pads_year : bool) (y : Z) : str :=
  if pads_year then zfill4 y else lstrip_zeros (zfill4 y).

Definition strftime_Ymd (pads_year : bool) (t : datetime) : str :=
  strftime_Y pads_year (year t) ++ zfill2 (month t) ++ zfill2 (day t).

Definition hyphen : codepoint := 45%N.

(** [range(lo, hi)] *)
Definition py_range (lo hi : Z) : list Z :=
  map (fun i => lo + Z.of_nat i) (seq 0 (Z.to_nat (hi - lo))).

(** [os.path.join(a, b)] (POSIX) for two components. *)
Definition slash : codepoint := 47%N.

Definition os_path_join (a b : str) : str :=
  match b with
  | c :: _ => if (c =? slash)%N then b
              else match a with
                   | [] => b
                   | _ => if (last a 0 =? slash)%N then a ++ b else a ++ slash :: b
                   end
  | [] => match a with
          | [] => b
          | _ => if (last a 0 =? slash)%N then a ++ b else a ++ slash :: b
          end
  end.

(** An f-string field holding a [str] or [None]. *)
Definition format_field (v : option str) : str :=
  match v with
  | Some s => s
  | None => py "None"
  end.

(** ** The manifest as [pandas] hands it over

    [pd.read_csv(..., dtype=str)] yields a frame whose cells are strings or
    NaN (an empty field); column labels are unique. *)

Definition cell : Type := option str.   (* [None] is NaN *)

Record DataFrame : Type := mk_frame { columns : list str; data : list (list cell) }.

Definition dict : Type := list (str * cell).

Fixpoint dict_get (k : str) (d : dict) : option cell :=
  match d with
  | [] => None
  | (k', v) :: rest => if str_eqb k' k then Some v else dict_get k rest
  end.

Definition required_columns : list str :=
  [py "配信履歴ID"; py "データ名"; py "期間"; py "URL"; py "有効期限"].

Definition dropna_subset : list str :=
  [py "配信履歴ID"; py "期間"; py "URL"; py "有効期限"].

(** The loop [for col in required_columns: if col not in df.columns: ...]:
    the first required column the frame lacks. *)
Fixpoint first_missing (cols required : list str) : option str :=
  match required with
  | [] => None
  | col :: rest =>
    if existsb (str_eqb col) cols then first_missing cols rest else Some col
  end.

Definition to_dict (cols : list str) (row : list cell) : dict := combine cols row.

Definition notna (d : dict) (col : str) : bool :=
  match dict_get col d with
  | Some (Some _) => true
  | _ => false
  end.

(** [df.dropna(subset=...)]: a row stays when none of the subset is NaN. *)
Definition dropna (subset : list str) (df : DataFrame) : DataFrame :=
  mk_frame (columns df)
           (filter (fun row => forallb (notna (to_dict (columns df) row)) subset)
                   (data df)).

(** [df.to_dict('records')] *)
Definition to_dict_records (df : DataFrame) : list dict :=
  map (to_dict (columns df)) (data df).

(** What the loop of [main] reads from one record: the values under the four
    keys it looks up.  After [dropna] all four are strings, so the records
    [read_urls_from_csv] returns always convert ([rows_of_dicts]). *)
Record ManifestRow : Type := mk_row {
  delivery_id : str;
  period_str : str;
  url : str;
  expiration : str
}.

Definition get_str (k : str) (d : dict) : option str :=
  match dict_get k d with
  | Some (Some s) => Some s
  | _ => None
  end.

Definition row_of_dict (d : dict) : option ManifestRow :=
  match get_str (py "配信履歴ID") d, get_str (py "期間") d,
        get_str (py "URL") d, get_str (py "有効期限") d with
  | Some i, Some p, Some u, Some e => Some (mk_row i p u e)
  | _, _, _, _ => None
  end.

Fixpoint rows_of_dicts (ds : list dict) : option (list ManifestRow) :=
  match ds with
  | [] => Some []
  | d :: rest =>
    match row_of_dict d, rows_of_dicts rest with
    | Some r, Some rs => Some (r :: rs)
    | _, _ => None
    end
  end.

(** ** Configuration (the module constants and the API key) *)

Record Config : Type := mk_config {
  S3_BUCKET_NAME : str;
  S3_STORAGE_CLASS : str;
  DOWNLOAD_DIR : str;
  CSV_FILE_PATH : str;
  RETRIES : Z;
  BACKOFF_FACTOR : Z;
  API_KEY : str
}.

Definition source_config (api_key : str) : Config :=
  mk_config (py "dermsplanner-dev-bucket-weather-prediction-data-491085428607")
            (py "STANDARD")
            (py "./data/output/")
            (py "./data/input/ods_download_url.csv")
            1 5 api_key.

(** ** Effects: the outside world, the trace and the monad *)

(** The exception classes the source names or meets, and [OtherException]
    for every other class. *)
Inductive exn : Type :=
| ValueError
| KeyError
| OSError
| FileNotFoundError
| NoCredentialsError
| ClientError
| OtherException (class_name : string).

(** [subprocess.run(curl_command, ...)]: it returns a completed process (its
    return code, and its stderr decoded and stripped, [None] when the bytes do
    not decode) or raises. *)
Inductive run_result : Type :=
| Completed (returncode : Z) (stderr : option str)
| RunRaised.

(** [s3_client.upload_file(...)] returns or raises; what it may raise is
    not limited to the three classes [upload_to_s3] names. *)
Inductive upload_result : Type :=
| UploadReturned
| UploadRaised (e : exn).

(** [os.remove] raises nothing but [OSError] (and its subclasses). *)
Inductive remove_result : Type :=
| RemoveReturned
| RemoveRaisedOSError.

Inductive read_csv_result : Type :=
| Frame (df : DataFrame)
| ReadCsvRaised.

Inductive level : Type := INFO | WARNING | ERROR.

(** The messages of the source, one constructor per text, with the values the
    text interpolates (the text of a caught exception is left out). *)
Inductive message : Type :=
| PeriodNotInFormat (period : str)                          (* line 49 *)
| PeriodParseError (period : str)                           (* line 56 *)
| DownloadAttempt (attempt retries : Z) (url : str)         (* line 67 *)
| DownloadComplete (url : str)                              (* line 83 *)
| CurlError (stderr : str)                                  (* line 87 *)
| DownloadFailedRetrying (url : str) (wait next retries : Z) (* line 92 *)
| MaxRetriesReachedUrl (url : str)                          (* lines 95, 104 *)
| DownloadUnexpectedError (url : str)                       (* line 98 *)
| RetryingIn (wait next retries : Z)                        (* lines 101, 132 *)
| UploadComplete (s3_key : str)                             (* line 120 *)
| FileNotFound (file_path : str)                            (* line 123 *)
| CredentialsNotFound                                       (* line 126 *)
| UploadError                                               (* line 129 *)
| MaxRetriesReachedKey (s3_key : str)                       (* line 135 *)
| ColumnNotFound (col : str)                                (* line 147 *)
| CsvReadError                                              (* line 152 *)
| DownloadDirCreated (dir : str)                            (* line 159 *)
| NoUrlsToProcess                                           (* lines 164, 165 *)
| FileCount (total : Z)                                     (* lines 169, 170 *)
| ExpirationFormatError (expiration : str)                  (* line 182 *)
| SkipCannotNameFile (delivery_id : str)                    (* line 183 *)
| StartDownload (idx total : Z) (file_name : str)           (* line 190 *)
| StartDownloadFrom (idx total : Z) (file_name url : str)   (* line 191 *)
| DownloadFailedSkipping (url : str)                        (* lines 194, 195 *)
| StartUpload (idx total : Z) (file_name : str)             (* line 198 *)
| StartUploadKey (idx total : Z) (file_name s3_key : str)   (* line 199 *)
| UploadFailedKeepingFile (download_path : str)             (* lines 203, 204 *)
| LocalFileRemoved (idx total : Z) (download_path : str)    (* lines 210, 211 *)
| RemoveFailed (download_path : str).                       (* lines 213, 214 *)

Inductive event : Type :=
| Log (lv : level) (m : message)
| Print (m : message)
| Run (argv : list str) (r : run_result)
| Sleep (seconds : Z)
| UploadFile (filename bucket key storage_class : str) (r : upload_result)
| Remove (path : str) (r : remove_result)
| PathExists (path : str) (r : bool)
| MakeDirs (path : str) (ok : bool)
| ReadCsv (path : str) (r : read_csv_result).

(** The outside world answers each call; the answer may depend on everything
    that happened before (the trace so far).  [libc_pads_year] is the C
    library's treatment of [%Y]. *)
Record World : Type := mk_world {
  libc_pads_year : bool;
  subprocess_run : list event -> list str -> run_result;
  s3_upload_file : list event -> str -> str -> str -> str -> upload_result;
  os_remove : list event -> str -> remove_result;
  os_path_exists : list event -> str -> bool;
  os_makedirs : list event -> str -> bool;
  pd_read_csv : list event -> str -> read_csv_result
}.

Inductive outcome (A : Type) : Type :=
| Returned (a : A)
| Raised (e : exn).

Arguments Returned {A} a.
Arguments Raised {A} e.

(** A computation reads the trace so far and yields its outcome and the events
    it added. *)
Definition M (A : Type) : Type := list event -> outcome A * list event.

Definition ret {A : Type} (a : A) : M A := fun _ => (Returned a, []).

Definition raise {A : Type} (e : exn) : M A := fun _ => (Raised e, []).

Definition bind {A B : Type} (m : M A) (f : A -> M B) : M B :=
  fun h =>
    match m h with
    | (Returned a, es) =>
      let (r, es') := f a (h ++ es) in (r, es ++ es')
    | (Raised e, es) => (Raised e, es)
    end.

Notation "x <- m ;; k" := (bind m (fun x => k))
  (at level 61, m at next level, right associativity).
Notation "m ;; k" := (bind m (fun _ => k))
  (at level 61, right associativity).

(** [try: m  except <classes>: handler]; [handler e = None] when no clause
    matches [e]. *)
Definition try_except {A : Type} (m : M A) (handler : exn -> option (M A)) : M A :=
  fun h =>
    match m h with
    | (Returned a, es) => (Returned a, es)
    | (Raised e, es) =>
      match handler e with
      | Some k => let (r, es') := k (h ++ es) in (r, es ++ es')
      | None => (Raised e, es)
      end
    end.

Definition emit (ev : event) : M unit := fun _ => (Returned tt, [ev]).

Definition logging (lv : level) (m : message) : M unit := emit (Log lv m).

Definition print (m : message) : M unit := emit (Print m).

(** [time.sleep(seconds)] raises [ValueError] on a negative length. *)
Definition time_sleep (seconds : Z) : M unit :=
  if seconds <? 0 then raise ValueError else emit (Sleep seconds).

Section Program.

Variable w : World.

(** Calls into the outside world, recorded in the trace with their answer. *)
Definition run_subprocess (argv : list str) : M run_result :=
  fun h => let r := subprocess_run w h argv in (Returned r, [Run argv r]).

Definition upload_file (filename bucket key storage_class : str) : M upload_result :=
  fun h =>
    let r := s3_upload_file w h filename bucket key storage_class in
    (Returned r, [UploadFile filename bucket key storage_class r]).

Definition remove (path : str) : M remove_result :=
  fun h => let r := os_remove w h path in (Returned r, [Remove path r]).

Definition path_exists (path : str) : M bool :=
  fun h => let r := os_path_exists w h path in (Returned r, [PathExists path r]).

Definition makedirs (path : str) : M unit :=
  fun h =>
    let ok := os_makedirs w h path in
    (if ok then Returned tt else Raised OSError, [MakeDirs path ok]).

Definition read_csv (path : str) : M read_csv_result :=
  fun h => let r := pd_read_csv w h path in (Returned r, [ReadCsv path r]).

(** *** [parse_period] (lines 40-57) *)

(** [datetime(int(g[0]), int(g[1]), int(g[2]))]; [None] when one of the calls
    raises. *)
Definition datetime_of_groups (g : groups) : option datetime :=
  let '(y, m, d) := g in
  match py_int y, py_int m, py_int d with
  | Some yv, Some mv, Some dv => new_datetime yv mv dv
  | _, _, _ => None
  end.

Definition parse_period (period_str : str) : M (option str) :=
  let dates := re_findall period_str in
  match dates with
  | [g0; g1] =>
    match datetime_of_groups g0, datetime_of_groups g1 with
    | Some start_date, Some end_date =>
      let formatted_period :=
        strftime_Ymd (libc_pads_year w) start_date ++ hyphen
          :: strftime_Ymd (libc_pads_year w) end_date in
      ret (Some formatted_period)
    | _, _ =>
      (* except Exception *)
      logging ERROR (PeriodParseError period_str) ;;
      ret None
    end
  | _ =>
    logging ERROR (PeriodNotInFormat period_str) ;;
    ret None
  end.

(** *** [download_file] (lines 59-105)

    The result is [Some true] for [True], [Some false] for [False] and [None]
    for the [None] of a function that runs off its end. *)

Definition curl_command (api_key url download_path : str) : list str :=
  [py "curl"; py "-L"; url; py "-H"; py "x-api-key: " ++ api_key;
   py "-o"; download_path; py "-f"; py "--retry"; py "0"].

Fixpoint download_attempts (api_key url download_path : str)
    (retries backoff_factor : Z) (attempts : list Z) : M (option bool) :=
  match attempts with
  | [] => ret None
  | attempt :: rest =>
    logging INFO (DownloadAttempt attempt retries url) ;;
    result <- run_subprocess (curl_command api_key url download_path) ;;
    let unexpected :=
      (* except Exception *)
      logging ERROR (DownloadUnexpectedError url) ;;
      if attempt <? retries then
        let wait := backoff_factor * attempt in
        logging INFO (RetryingIn wait (attempt + 1) retries) ;;
        time_sleep wait ;;
        download_attempts api_key url download_path retries backoff_factor rest
      else
        logging ERROR (MaxRetriesReachedUrl url) ;;
        ret (Some false) in
    match result with
    | Completed returncode stderr =>
      if returncode =? 0 then
        logging INFO (DownloadComplete url) ;;
        ret (Some true)
      else
        match stderr with
        | Some error_message =>
          logging ERROR (CurlError error_message) ;;
          (* raise CalledProcessError; except CalledProcessError *)
          if attempt <? retries then
            let wait := backoff_factor * attempt in
            logging WARNING
              (DownloadFailedRetrying url wait (attempt + 1) retries) ;;
            time_sleep wait ;;
            download_attempts api_key url download_path retries backoff_factor rest
          else
            logging ERROR (MaxRetriesReachedUrl url) ;;
            ret (Some false)
        | None => unexpected
        end
    | RunRaised => unexpected
    end
  end.

Definition download_file (api_key url download_path : str)
    (retries backoff_factor : Z) : M (option bool) :=
  download_attempts api_key url download_path retries backoff_factor
                    (py_range 1 (retries + 1)).

(** *** [upload_to_s3] (lines 107-136) *)

Fixpoint upload_attempts (file_path bucket s3_key storage_class : str)
    (retries backoff_factor : Z) (attempts : list Z) : M (option bool) :=
  match attempts with
  | [] => ret None
  | attempt :: rest =>
    r <- upload_file file_path bucket s3_key storage_class ;;
    match r with
    | UploadReturned =>
      logging INFO (UploadComplete s3_key) ;;
      ret (Some true)
    | UploadRaised FileNotFoundError =>
      logging ERROR (FileNotFound file_path) ;;
      ret (Some false)
    | UploadRaised NoCredentialsError =>
      logging ERROR CredentialsNotFound ;;
      ret (Some false)
    | UploadRaised ClientError =>
      logging ERROR UploadError ;;
      if attempt <? retries then
        let wait := backoff_factor * attempt in
        logging INFO (RetryingIn wait (attempt + 1) retries) ;;
        time_sleep wait ;;
        upload_attempts file_path bucket s3_key storage_class
                        retries backoff_factor rest
      else
        logging ERROR (MaxRetriesReachedKey s3_key) ;;
        ret (Some false)
    | UploadRaised e => raise e      (* no clause for it *)
    end
  end.

Definition upload_to_s3 (file_path bucket s3_key storage_class : str)
    (retries backoff_factor : Z) : M (option bool) :=
  upload_attempts file_path bucket s3_key storage_class retries backoff_factor
                  (py_range 1 (retries + 1)).

(** *** [read_urls_from_csv] (lines 138-153) *)

Definition read_urls_from_csv (csv_path : str) : M (list dict) :=
  r <- read_csv csv_path ;;
  match r with
  | Frame df =>
    match first_missing (columns df) required_columns with
    | Some col =>
      logging ERROR (ColumnNotFound col) ;;
      ret []
    | None => ret (to_dict_records (dropna dropna_subset df))
    end
  | ReadCsvRaised =>
    logging ERROR CsvReadError ;;
    ret []
  end.

(** *** [main] (lines 155-214) *)

(** [not success] *)
Definition falsy (v : option bool) : bool :=
  match v with
  | Some true => false
  | _ => true
  end.

Definition file_name_of (delivery_id : str) (formatted_expiration : option str) : str :=
  delivery_id ++ py "_" ++ format_field formatted_expiration ++ py ".zip".

(** One pass of the [for] loop; [continue] and the end of the body both
    return [tt]. *)
Definition loop_body (cfg : Config) (idx total_files : Z) (record : ManifestRow)
    : M unit :=
  parsed <- try_except
              (v <- parse_period (period_str record) ;; ret (Some v))
              (fun e =>
                 match e with
                 | ValueError =>
                   Some (logging ERROR (ExpirationFormatError (expiration record)) ;;
                         print (SkipCannotNameFile (delivery_id record)) ;;
                         ret None)
                 | _ => None
                 end) ;;
  match parsed with
  | None => ret tt   (* continue *)
  | Some formatted_expiration =>
    let file_name := file_name_of (delivery_id record) formatted_expiration in
    let download_path := os_path_join (DOWNLOAD_DIR cfg) file_name in
    print (StartDownload idx total_files file_name) ;;
    logging INFO (StartDownloadFrom idx total_files file_name (url record)) ;;
    success <- download_file (API_KEY cfg) (url record) download_path
                             (RETRIES cfg) (BACKOFF_FACTOR cfg) ;;
    if falsy success then
      print (DownloadFailedSkipping (url record)) ;;
      logging WARNING (DownloadFailedSkipping (url record))
    else
      print (StartUpload idx total_files file_name) ;;
      logging INFO (StartUploadKey idx total_files file_name file_name) ;;
      let s3_key := file_name in
      upload_success <- upload_to_s3 download_path (S3_BUCKET_NAME cfg) s3_key
                                     (S3_STORAGE_CLASS cfg)
                                     (RETRIES cfg) (BACKOFF_FACTOR cfg) ;;
      if falsy upload_success then
        print (UploadFailedKeepingFile download_path) ;;
        logging WARNING (UploadFailedKeepingFile download_path)
      else
        r <- remove download_path ;;
        match r with
        | RemoveReturned =>
          print (LocalFileRemoved idx total_files download_path) ;;
          logging INFO (LocalFileRemoved idx total_files download_path)
        | RemoveRaisedOSError =>
          print (RemoveFailed download_path) ;;
          logging WARNING (RemoveFailed download_path)
        end
  end.

(** [for idx, record in enumerate(records, start=1)] *)
Fixpoint main_loop (cfg : Config) (total_files idx : Z) (records : list ManifestRow)
    : M unit :=
  match records with
  | [] => ret tt
  | record :: rest =>
    loop_body cfg idx total_files record ;;
    main_loop cfg total_files (idx + 1) rest
  end.

Definition main (cfg : Config) : M unit :=
  present <- path_exists (DOWNLOAD_DIR cfg) ;;
  (if present then ret tt
   else makedirs (DOWNLOAD_DIR cfg) ;;
        logging INFO (DownloadDirCreated (DOWNLOAD_DIR cfg))) ;;
  records <- read_urls_from_csv (CSV_FILE_PATH cfg) ;;
  match records with
  | [] =>
    print NoUrlsToProcess ;;
    logging INFO NoUrlsToProcess
  | _ =>
    let total_files := Z.of_nat (length records) in
    print (FileCount total_files) ;;
    logging INFO (FileCount total_files) ;;
    match rows_of_dicts records with
    | Some rows => main_loop cfg total_files 1 rows
    | None => raise KeyError   (* [record[...]] on a record without the key *)
    end
  end.

End Program.

(** ** Reading a trace *)

Definition runs (es : list event) : list (list str) :=
  flat_map (fun e => match e with Run argv _ => [argv] | _ => [] end) es.

Definition sleeps (es : list event) : list Z :=
  flat_map (fun e => match e with Sleep s => [s] | _ => [] end) es.

(** The (file, bucket, key, storage class) of every upload call. *)
Definition uploads (es : list event) : list (str * str * str * str) :=
  flat_map (fun e => match e with
                     | UploadFile f b k c _ => [(f, b, k, c)]
                     | _ => []
                     end) es.

Definition removes (es : list event) : list str :=
  flat_map (fun e => match e with Remove p _ => [p] | _ => [] end) es.

Definition printed (es : list event) : list message :=
  flat_map (fun e => match e with Print m => [m] | _ => [] end) es.

(** How the loop reports the end of a record on standard output. *)
Inductive verdict : Type :=
| SkippedNoName        (* line 183 *)
| FailedDownload       (* line 194 *)
| FailedUpload         (* line 203 *)
| Cleaned              (* line 210 *)
| UploadedNotCleaned.  (* line 213 *)

Definition verdict_of (m : message) : list verdict :=
  match m with
  | SkipCannotNameFile _ => [SkippedNoName]
  | DownloadFailedSkipping _ => [FailedDownload]
  | UploadFailedKeepingFile _ => [FailedUpload]
  | LocalFileRemoved _ _ _ => [Cleaned]
  | RemoveFailed _ => [UploadedNotCleaned]
  | _ => []
  end.

Definition verdicts (es : list event) : list verdict :=
  flat_map verdict_of (printed es).

(** The file names announced at the start of each record (line 190). *)
Definition started (es : list event) : list str :=
  flat_map (fun m => match m with StartDownload _ _ f => [f] | _ => [] end)
           (printed es).

(** A completed [curl] that did not exit with 0, or a call that raised. *)
Definition run_failed (r : run_result) : bool :=
  match r with
  | Completed returncode _ => negb (returncode =? 0)
  | RunRaised => true
  end.


(** ** The specification's side *)

(** A calendar date as the number its [YYYYMMDD] form reads. *)
Definition ordinal (t : datetime) : Z := year t * 10000 + month t * 100 + day t.

Definition is_ascii_digit (c : codepoint) : bool := (48 <=? c)%N && (c <=? 57)%N.

(** "The records whose required fields are all present and non-empty", the
    fields being the four of a record: identifier, period, URL, expiration. *)
Definition has_required_fields (d : dict) : bool :=
  match row_of_dict d with Some _ => true | None => false end.

Definition spec_records (df : DataFrame) : list dict :=
  filter has_required_fields (to_dict_records df).

Definition has_columns (df : DataFrame) (required : list str) : bool :=
  forallb (fun col => existsb (str_eqb col) (columns df)) required.

(** ** Worlds and records used in examples *)

(** A world that gives the same answers whatever came before. *)
Definition steady_world (pads : bool) (run : run_result) (up : upload_result)
    (rm : remove_result) (csv : read_csv_result) : World :=
  mk_world pads (fun _ _ => run) (fun _ _ _ _ _ => up) (fun _ _ => rm)
           (fun _ _ => true) (fun _ _ => true) (fun _ _ => csv).

(** A world where everything works. *)
Definition fair_world : World :=
  steady_world false (Completed 0 (Some [])) UploadReturned RemoveReturned
               ReadCsvRaised.

(** [curl] exits with 22 (HTTP error under [-f]) every time. *)
Definition offline_world : World :=
  steady_world false (Completed 22 (Some (py "curl: (22)"))) UploadReturned
               RemoveReturned ReadCsvRaised.

(** The fetch works, the service rejects every upload with [ClientError]. *)
Definition rejecting_world : World :=
  steady_world false (Completed 0 (Some [])) (UploadRaised ClientError)
               RemoveReturned ReadCsvRaised.

(** The fetch and the upload work, the local file cannot be removed. *)
Definition sticky_world : World :=
  steady_world false (Completed 0 (Some [])) UploadReturned RemoveRaisedOSError
               ReadCsvRaised.

(** The fetch works; [upload_file] raises an exception of a class for which
    [upload_to_s3] has no clause. *)
Definition s3_failing_world : World :=
  steady_world false (Completed 0 (Some []))
               (UploadRaised (OtherException "S3UploadFailedError"))
               RemoveReturned ReadCsvRaised.

(** The upload answers [ClientError] until [n] upload calls are in the trace. *)
Definition flaky_world (n : nat) : World :=
  mk_world false (fun _ _ => Completed 0 (Some []))
           (fun h _ _ _ _ =>
              if (length (uploads h) <? n)%nat then UploadRaised ClientError
              else UploadReturned)
           (fun _ _ => RemoveReturned)
           (fun _ _ => true) (fun _ _ => true) (fun _ _ => ReadCsvRaised).

Definition row_A1 (period : string) : ManifestRow :=
  mk_row (py "A1") (py period) (py "https://x/file") (py "2024-07-31").

Definition row_B2 : ManifestRow :=
  mk_row (py "B2") (py "2024年7月1日～2024年7月3日") (py "https://x/other")
         (py "2024-08-31").

Definition test_config (retries backoff_factor : Z) : Config :=
  mk_config (py "bucket") (py "STANDARD") (py "./data/output/")
            (py "./data/input/ods_download_url.csv") retries backoff_factor
            (py "secret").

Definition sample_frame : DataFrame :=
  mk_frame required_columns
    [[Some (py "A1"); Some (py "wind"); Some (py "2024年6月28日～2024年6月30日");
      Some (py "https://x/file"); Some (py "2024-07-31")];
     [Some (py "A2"); Some (py "wind"); Some (py "2024年6月28日～2024年6月30日");
      None; Some (py "2024-07-31")];
     [Some (py "A3"); None; Some (py "2024年7月1日～2024年7月3日");
      Some (py "https://x/other"); Some (py "2024-08-31")]].

Definition frame_without_url : DataFrame :=
  mk_frame [py "配信履歴ID"; py "データ名"; py "期間"; py "有効期限"]
    [[Some (py "A1"); Some (py "wind"); Some (py "2024年6月28日～2024年6月30日");
      Some (py "2024-07-31")]].

Definition docstring_period : str := py "2024年6月28日～2024年6月30日".

Definition reversed_period : str := py "2024年6月30日～2024年6月28日".

Definition iso_period : str := py "2024-06-28 to 2024-06-30".

Definition impossible_period : str := py "2024年2月30日～2024年3月1日".

(** The value [parse_period] returns for a period text. *)
Definition parsed_period (w : World) (s : str) : option str :=
  match fst (parse_period w s []) with
  | Returned v => v
  | Raised _ => None
  end.

Definition key_of (u : str * str * str * str) : str := snd (fst u).

Definition csv_world (csv : read_csv_result) : World :=
  steady_world false (Completed 0 (Some [])) UploadReturned RemoveReturned csv.

(** A date as the pattern expects it in a text: the three digit groups with
    their markers. *)
Definition date_text (g : groups) : str :=
  let '(y, m, d) := g in y ++ nen :: m ++ gatsu :: d ++ [nichi].

Definition digit_group (lo hi : nat) (s : str) : bool :=
  forallb is_decimal s && (lo <=? length s)%nat && (length s <=? hi)%nat.

Definition date_groups (g : groups) : bool :=
  let '(y, m, d) := g in
  digit_group 4 4 y && digit_group 1 2 m && digit_group 1 2 d.

Definition digit_free (s : str) : bool :=
  forallb (fun c => negb (is_decimal c)) s.

(** ** More readers of a trace *)

(** The answers [subprocess.run] and [upload_file] gave, in order. *)
Definition run_results (es : list event) : list run_result :=
  flat_map (fun e => match e with Run _ r => [r] | _ => [] end) es.

Definition upload_answers (es : list event) : list upload_result :=
  flat_map (fun e => match e with UploadFile _ _ _ _ r => [r] | _ => [] end) es.

Definition logged (es : list event) : list (level * message) :=
  flat_map (fun e => match e with Log lv m => [(lv, m)] | _ => [] end) es.

(** The progress lines [[idx/total] 開始: file_name のダウンロード] (line 190). *)
Definition announced (es : list event) : list (Z * Z * str) :=
  flat_map (fun m => match m with StartDownload i t f => [(i, t, f)] | _ => [] end)
           (printed es).

(** The calls that reach outside the pipeline of a record. *)
Definition setup_calls (es : list event) : list event :=
  filter (fun e => match e with
                   | PathExists _ _ | MakeDirs _ _ | ReadCsv _ _ => true
                   | _ => false
                   end) es.

(** The file a [curl] command writes to: the argument after [-o]. *)
Definition target_of (argv : list str) : str := nth 6 argv [].

(** An upload is justified by an earlier fetch into the uploaded file that
    exited with 0, a removal by an earlier upload of the removed file that
    returned. *)
Definition justified (hist : list event) (e : event) : Prop :=
  match e with
  | UploadFile f _ _ _ _ =>
    exists argv stderr, In (Run argv (Completed 0 stderr)) hist /\ target_of argv = f
  | Remove p _ =>
    exists b k c, In (UploadFile p b k c UploadReturned) hist
  | _ => True
  end.

Fixpoint safe_from (hist es : list event) : Prop :=
  match es with
  | [] => True
  | e :: rest => justified hist e /\ safe_from (hist ++ [e]) rest
  end.

(** What [datetime(y, m, d)] accepts. *)
Definition calendar_date (y m d : Z) : Prop :=
  1 <= y <= 9999 /\ 1 <= m <= 12 /\ 1 <= d <= days_in_month y m.

Definition with_expiration (e : str) (r : ManifestRow) : ManifestRow :=
  mk_row (delivery_id r) (period_str r) (url r) e.

(** The file name, the download path and the [curl] command of a record. *)
Definition file_name_for (w : World) (r : ManifestRow) : str :=
  file_name_of (delivery_id r) (parsed_period w (period_str r)).

Definition download_path_for (w : World) (cfg : Config) (r : ManifestRow) : str :=
  os_path_join (DOWNLOAD_DIR cfg) (file_name_for w r).


(** The fetch fails until [n] runs are in the trace, then it works. *)
Definition flaky_fetch_world (n : nat) : World :=
  mk_world false
           (fun h _ => if (length (runs h) <? n)%nat
                       then Completed 22 (Some (py "curl: (22)"))
                       else Completed 0 (Some []))
           (fun _ _ _ _ _ => UploadReturned)
           (fun _ _ => RemoveReturned)
           (fun _ _ => true) (fun _ _ => true) (fun _ _ => ReadCsvRaised).

(** The download directory is missing and cannot be created. *)
Definition readonly_world : World :=
  mk_world false (fun _ _ => Completed 0 (Some [])) (fun _ _ _ _ _ => UploadReturned)
           (fun _ _ => RemoveReturned)
           (fun _ _ => false) (fun _ _ => false) (fun _ _ => Frame sample_frame).

Definition frame_of_blanks : DataFrame :=
  mk_frame required_columns
    [[Some (py "A1"); Some (py "wind"); None; Some (py "https://x/file");
      Some (py "2024-07-31")];
     [None; Some (py "wind"); Some (py "2024年6月28日～2024年6月30日");
      Some (py "https://x/file"); Some (py "2024-07-31")]].


(** * Properties *)

(** ** Decimal digits and [strftime] *)

Ltac div_lia := Z.div_mod_to_equations; lia.

Lemma decimal_value_digit_char (d : Z) :
  0 <= d <= 9 -> decimal_value (digit_char d) = Some d.
Proof.
  intros Hd.
  assert (Hcases : d = 0 \/ d = 1 \/ d = 2 \/ d = 3 \/ d = 4 \/ d = 5 \/ d = 6
                   \/ d = 7 \/ d = 8 \/ d = 9) by lia.
  repeat (destruct Hcases as [-> | Hcases]; [reflexivity |]).
  subst d. reflexivity.
Qed.

Lemma is_ascii_digit_digit_char (d : Z) :
  0 <= d <= 9 -> is_ascii_digit (digit_char d) = true.
Proof.
  intros Hd. unfold is_ascii_digit, digit_char.
  apply andb_true_iff. split; apply N.leb_le; lia.
Qed.

Lemma markers_are_not_digits :
  is_decimal nen = false /\ is_decimal gatsu = false /\ is_decimal nichi = false.
Proof. repeat split; reflexivity. Qed.

Lemma int_digits_zfill2 (acc n : Z) (rest : str) :
  0 <= n <= 99 ->
  int_digits acc (zfill2 n ++ rest) = int_digits (100 * acc + n) rest.
Proof.
  intros Hn. unfold zfill2. cbn [app int_digits].
  rewrite !decimal_value_digit_char by div_lia.
  f_equal. div_lia.
Qed.

Lemma int_digits_zfill4 (acc n : Z) (rest : str) :
  0 <= n <= 9999 ->
  int_digits acc (zfill4 n ++ rest) = int_digits (10000 * acc + n) rest.
Proof.
  intros Hn. unfold zfill4. cbn [app int_digits].
  rewrite !decimal_value_digit_char by div_lia.
  f_equal. div_lia.
Qed.

(** Leading zeros do not change the number read. *)
Lemma int_digits_lstrip_zfill4 (n : Z) (rest : str) :
  0 <= n <= 9999 ->
  int_digits 0 (lstrip_zeros (zfill4 n) ++ rest) = int_digits 0 (zfill4 n ++ rest).
Proof.
  intros Hn. unfold zfill4.
  set (a := digit_char (n / 1000)). set (b := digit_char (n / 100 mod 10)).
  set (c := digit_char (n / 10 mod 10)). set (d := digit_char (n mod 10)).
  cbn [lstrip_zeros].
  destruct (a =? 48)%N eqn:Ea; [| reflexivity].
  apply N.eqb_eq in Ea.
  destruct (b =? 48)%N eqn:Eb;
    [| rewrite Ea; reflexivity].
  apply N.eqb_eq in Eb.
  destruct (c =? 48)%N eqn:Ec;
    [| rewrite Ea, Eb; reflexivity].
  apply N.eqb_eq in Ec.
  rewrite Ea, Eb, Ec. reflexivity.
Qed.

Lemma lstrip_zfill4_from_1000 (n : Z) :
  1000 <= n <= 9999 -> lstrip_zeros (zfill4 n) = zfill4 n.
Proof.
  intros Hn. unfold zfill4. cbn [lstrip_zeros].
  replace (digit_char (n / 1000) =? 48)%N with false; [reflexivity |].
  symmetry. apply N.eqb_neq. unfold digit_char. div_lia.
Qed.

Lemma new_datetime_valid (y m d : Z) (t : datetime) :
  new_datetime y m d = Some t ->
  t = mk_datetime y m d /\ 1 <= y <= 9999 /\ 1 <= m <= 12
  /\ 1 <= d <= days_in_month y m.
Proof.
  unfold new_datetime. intros H.
  destruct ((1 <=? y) && (y <=? 9999) && (1 <=? m) && (m <=? 12)
            && (1 <=? d) && (d <=? days_in_month y m)) eqn:E; [| discriminate].
  inversion H; subst; clear H.
  repeat (apply andb_true_iff in E; destruct E as [E ?]).
  repeat match goal with H : (_ <=? _) = true |- _ => apply Z.leb_le in H end.
  repeat split; assumption.
Qed.

Lemma days_in_month_le_31 (y m : Z) : days_in_month y m <= 31.
Proof.
  unfold days_in_month.
  destruct (m =? 2); [destruct (is_leap y); lia |].
  destruct ((m =? 4) || (m =? 6) || (m =? 9) || (m =? 11)); lia.
Qed.

Lemma datetime_of_groups_valid (g : groups) (t : datetime) :
  datetime_of_groups g = Some t ->
  1 <= year t <= 9999 /\ 1 <= month t <= 12
  /\ 1 <= day t <= days_in_month (year t) (month t).
Proof.
  destruct g as [[y m] d]. unfold datetime_of_groups.
  destruct (py_int y); [| discriminate].
  destruct (py_int m); [| discriminate].
  destruct (py_int d); [| discriminate].
  intros H. apply new_datetime_valid in H. destruct H as [-> H]. exact H.
Qed.

Lemma py_int_strftime (pads : bool) (t : datetime) :
  1 <= year t <= 9999 -> 1 <= month t <= 12 -> 1 <= day t <= 31 ->
  py_int (strftime_Ymd pads t) = Some (ordinal t).
Proof.
  intros Hy Hm Hd.
  assert (Hpad : int_digits 0 (zfill4 (year t) ++ zfill2 (month t) ++ zfill2 (day t))
                 = Some (ordinal t)).
  { rewrite int_digits_zfill4, !int_digits_zfill2 by lia.
    rewrite <- (app_nil_r (zfill2 (day t))), int_digits_zfill2 by lia.
    cbn [int_digits]. unfold ordinal. f_equal. lia. }
  assert (Hval : int_digits 0 (strftime_Ymd pads t) = Some (ordinal t)).
  { unfold strftime_Ymd, strftime_Y. destruct pads; [exact Hpad |].
    rewrite int_digits_lstrip_zfill4 by lia. exact Hpad. }
  unfold py_int. destruct (strftime_Ymd pads t) eqn:E; [| exact Hval].
  unfold strftime_Ymd, zfill2 in E.
  apply app_eq_nil in E. destruct E as [_ E]. discriminate.
Qed.

Lemma strftime_padded_shape (pads : bool) (t : datetime) :
  1 <= year t <= 9999 -> 1 <= month t <= 12 -> 1 <= day t <= 31 ->
  pads = true \/ 1000 <= year t ->
  strftime_Ymd pads t = zfill4 (year t) ++ zfill2 (month t) ++ zfill2 (day t)
  /\ length (strftime_Ymd pads t) = 8%nat
  /\ forallb is_ascii_digit (strftime_Ymd pads t) = true.
Proof.
  intros Hy Hm Hd Hp.
  assert (E : strftime_Ymd pads t
              = zfill4 (year t) ++ zfill2 (month t) ++ zfill2 (day t)).
  { unfold strftime_Ymd, strftime_Y. destruct pads; [reflexivity |].
    destruct Hp as [Hp | Hp]; [discriminate |].
    rewrite lstrip_zfill4_from_1000 by lia. reflexivity. }
  rewrite E. split; [reflexivity |]. split; [reflexivity |].
  unfold zfill4, zfill2. cbn [app forallb].
  rewrite !is_ascii_digit_digit_char by div_lia. reflexivity.
Qed.

(** ** The pattern on a text with two dates *)

Lemma match_here_not_digit (c : codepoint) (s : str) :
  is_decimal c = false -> match_here (c :: s) = None.
Proof.
  intros Hc. unfold match_here, digits4.
  destruct s as [| b [| c' [| d rest]]]; try reflexivity.
  rewrite Hc. reflexivity.
Qed.

Lemma findall_digit_free_prefix (pre s : str) :
  digit_free pre = true -> findall_from O (pre ++ s) = findall_from O s.
Proof.
  induction pre as [| c pre IH]; intros Hfree; [reflexivity |].
  cbn [digit_free forallb] in Hfree. apply andb_true_iff in Hfree.
  destruct Hfree as [Hc Hpre]. apply negb_true_iff in Hc.
  cbn [app findall_from]. rewrite (match_here_not_digit c _ Hc).
  apply IH. exact Hpre.
Qed.

Lemma findall_digit_free (s : str) :
  digit_free s = true -> findall_from O s = [].
Proof.
  intros H. rewrite <- (app_nil_r s). rewrite findall_digit_free_prefix by exact H.
  reflexivity.
Qed.

Lemma findall_skip (a b : str) :
  findall_from (length a) (a ++ b) = findall_from O b.
Proof.
  induction a as [| c a IH]; [destruct b; reflexivity |].
  cbn [length app findall_from]. exact IH.
Qed.

Lemma findall_after_match (a b : str) (g : groups) :
  a <> [] -> match_here (a ++ b) = Some (g, length a) ->
  findall_from O (a ++ b) = g :: findall_from O b.
Proof.
  intros Hne Hmatch. destruct a as [| c a]; [congruence |].
  cbn [app findall_from] in *. rewrite Hmatch.
  cbn [length pred]. rewrite findall_skip. reflexivity.
Qed.

Lemma digit_group_1_2 (s : str) :
  digit_group 1 2 s = true ->
  (exists a, s = [a] /\ is_decimal a = true)
  \/ (exists a b, s = [a; b] /\ is_decimal a = true /\ is_decimal b = true).
Proof.
  unfold digit_group. intros H.
  apply andb_true_iff in H. destruct H as [H Hhi].
  apply andb_true_iff in H. destruct H as [Hall Hlo].
  destruct s as [| a [| b [| c rest]]]; cbn in Hlo, Hhi; try discriminate.
  - left. exists a. cbn in Hall. rewrite andb_true_r in Hall. auto.
  - right. exists a, b. cbn [forallb] in Hall.
    apply andb_true_iff in Hall. destruct Hall as [Ha Hb].
    rewrite andb_true_r in Hb. auto.
Qed.

Lemma digit_group_4 (s : str) :
  digit_group 4 4 s = true ->
  exists a b c d, s = [a; b; c; d]
    /\ is_decimal a && is_decimal b && is_decimal c && is_decimal d = true.
Proof.
  unfold digit_group. intros H.
  apply andb_true_iff in H. destruct H as [H Hhi].
  apply andb_true_iff in H. destruct H as [Hall Hlo].
  destruct s as [| a [| b [| c [| d [| e rest]]]]]; cbn in Hlo, Hhi;
    try discriminate.
  exists a, b, c, d. split; [reflexivity |].
  cbn [forallb] in Hall. rewrite andb_true_r in Hall.
  rewrite <- !andb_assoc. exact Hall.
Qed.

(** The pattern matches a well-formed date at the head of a text, whatever
    follows, and consumes exactly the date. *)
Lemma match_here_date_text (g : groups) (rest : str) :
  date_groups g = true ->
  match_here (date_text g ++ rest) = Some (g, length (date_text g)).
Proof.
  destruct g as [[y m] d]. unfold date_groups. intros H.
  apply andb_true_iff in H. destruct H as [H Hd].
  apply andb_true_iff in H. destruct H as [Hy Hm].
  apply digit_group_4 in Hy. destruct Hy as (y0 & y1 & y2 & y3 & -> & Hy).
  destruct markers_are_not_digits as (_ & Hgatsu & Hnichi).
  unfold date_text, match_here, digits4. cbn [app]. rewrite Hy.
  cbn [literal]. rewrite N.eqb_refl.
  apply digit_group_1_2 in Hm. apply digit_group_1_2 in Hd.
  destruct Hm as [(a & -> & Ha) | (a & b & -> & Ha & Hb)];
    destruct Hd as [(c & -> & Hc) | (c & e & -> & Hc & He)];
    cbn [app digits12 length];
    rewrite ?Ha, ?Hb, ?Hgatsu; cbn [literal]; rewrite ?N.eqb_refl;
    cbn [digits12]; rewrite ?Hc, ?He, ?Hnichi; cbn [literal];
    rewrite ?N.eqb_refl; reflexivity.
Qed.

Lemma date_text_not_empty (g : groups) : date_text g <> [].
Proof.
  destruct g as [[y m] d]. unfold date_text. intros H.
  apply app_eq_nil in H. destruct H as [_ H]. discriminate H.
Qed.

(** Two well-formed dates, with text free of digits before, between and after
    them, are found as exactly two matches, in the order of the text. *)
Lemma re_findall_two_dates (pre mid post : str) (g0 g1 : groups) :
  digit_free pre = true -> digit_free mid = true -> digit_free post = true ->
  date_groups g0 = true -> date_groups g1 = true ->
  re_findall (pre ++ date_text g0 ++ mid ++ date_text g1 ++ post) = [g0; g1].
Proof.
  intros Hpre Hmid Hpost H0 H1. unfold re_findall.
  rewrite findall_digit_free_prefix by exact Hpre.
  rewrite (findall_after_match (date_text g0) _ g0)
    by (auto using date_text_not_empty, match_here_date_text).
  rewrite findall_digit_free_prefix by exact Hmid.
  rewrite (findall_after_match (date_text g1) _ g1)
    by (auto using date_text_not_empty, match_here_date_text).
  rewrite findall_digit_free by exact Hpost. reflexivity.
Qed.

(** ** What a match of the pattern is *)

Lemma digits4_some (s y rest : str) :
  digits4 s = Some (y, rest) -> s = y ++ rest /\ digit_group 4 4 y = true.
Proof.
  unfold digits4. destruct s as [| a [| b [| c [| d t]]]]; try discriminate.
  destruct (is_decimal a && is_decimal b && is_decimal c && is_decimal d) eqn:E;
    [| discriminate].
  intros H. inversion H; subst. split; [reflexivity |].
  unfold digit_group. cbn [forallb length].
  rewrite andb_true_r, !andb_assoc, E. reflexivity.
Qed.

Lemma literal_some (c : codepoint) (s rest : str) :
  literal c s = Some rest -> s = c :: rest.
Proof.
  unfold literal. destruct s as [| x t]; [discriminate |].
  destruct (x =? c)%N eqn:E; [| discriminate].
  apply N.eqb_eq in E. intros H. inversion H. subst. reflexivity.
Qed.

Lemma digits12_some {A : Type} (s : str) (k : str -> str -> option A) (r : A) :
  digits12 s k = Some r ->
  exists m rest, s = m ++ rest /\ digit_group 1 2 m = true /\ k m rest = Some r.
Proof.
  unfold digits12. destruct s as [| a t]; [discriminate |].
  destruct (is_decimal a) eqn:Ea; [| discriminate].
  assert (Hone : k [a] t = Some r ->
            exists m rest, a :: t = m ++ rest /\ digit_group 1 2 m = true
                           /\ k m rest = Some r).
  { intros Hk. exists [a], t. split; [reflexivity |]. split; [| exact Hk].
    unfold digit_group. cbn. rewrite Ea. reflexivity. }
  destruct t as [| b t']; [exact Hone |].
  destruct (is_decimal b) eqn:Eb; [| exact Hone].
  destruct (k [a; b] t') as [r' |] eqn:Ek; [| exact Hone].
  intros H. inversion H; subst r'.
  exists [a; b], t'. split; [reflexivity |]. split; [| exact Ek].
  unfold digit_group. cbn. rewrite Ea, Eb. reflexivity.
Qed.

Lemma match_here_sound (s : str) (g : groups) (n : nat) :
  match_here s = Some (g, n) ->
  date_groups g = true /\ n = length (date_text g)
  /\ exists rest, s = date_text g ++ rest.
Proof.
  unfold match_here.
  destruct (digits4 s) as [[y s1] |] eqn:E4; [| discriminate].
  apply digits4_some in E4. destruct E4 as [-> Hy].
  destruct (literal nen s1) as [s2 |] eqn:En; [| discriminate].
  apply literal_some in En. subst s1.
  intros H. apply digits12_some in H.
  destruct H as (m & s3 & -> & Hm & H).
  destruct (literal gatsu s3) as [s4 |] eqn:Eg; [| discriminate].
  apply literal_some in Eg. subst s3.
  apply digits12_some in H. destruct H as (d & s5 & -> & Hd & H).
  destruct (literal nichi s5) as [s6 |] eqn:Ei; [| discriminate].
  apply literal_some in Ei. subst s5.
  inversion H; subst; clear H.
  unfold date_groups, date_text. rewrite Hy, Hm, Hd.
  split; [reflexivity |]. split.
  - unfold digit_group in Hy.
    apply andb_true_iff in Hy. destruct Hy as [Hy Hhi].
    apply andb_true_iff in Hy. destruct Hy as [_ Hlo].
    apply Nat.leb_le in Hhi, Hlo.
    rewrite length_app. cbn [length]. rewrite length_app. cbn [length].
    rewrite length_app. cbn [length]. lia.
  - exists s6. rewrite <- !app_assoc. cbn [app].
    rewrite <- !app_assoc. cbn [app]. rewrite <- !app_assoc. reflexivity.
Qed.

(** X1.  The pattern matches at the head of a text exactly when the text
    starts with a well-formed date (four digits, 年, one or two digits, 月, one
    or two digits, 日); the groups are the digits of that date and the match
    consumes the date and nothing more. *)
Theorem match_here_iff (s : str) (g : groups) (n : nat) :
  match_here s = Some (g, n)
  <-> date_groups g = true /\ n = length (date_text g)
      /\ exists rest, s = date_text g ++ rest.
Proof.
  split; [apply match_here_sound |].
  intros (Hg & -> & rest & ->). apply match_here_date_text. exact Hg.
Qed.

Lemma match_here_iff_witness :
  match_here (py "2024年6月28日～2024年6月30日")
  = Some ((py "2024", py "6", py "28"), 10%nat).
Proof.
  apply (proj2 (match_here_iff (py "2024年6月28日～2024年6月30日")
                               (py "2024", py "6", py "28") 10)).
  split; [reflexivity |]. split; [reflexivity |].
  exists (py "～2024年6月30日"). reflexivity.
Defined.

Lemma findall_groups_well_formed (s : str) :
  forall skip g, In g (findall_from skip s) -> date_groups g = true.
Proof.
  induction s as [| c rest IH]; intros skip g Hin; [destruct Hin |].
  cbn [findall_from] in Hin. destruct skip as [| k].
  - destruct (match_here (c :: rest)) as [[g' n] |] eqn:E.
    + destruct Hin as [<- | Hin].
      * apply match_here_sound in E. exact (proj1 E).
      * exact (IH _ _ Hin).
    + exact (IH _ _ Hin).
  - exact (IH _ _ Hin).
Qed.

Lemma decimal_value_range (c : codepoint) :
  is_decimal c = true -> exists v, decimal_value c = Some v /\ 0 <= v <= 9.
Proof.
  unfold is_decimal, decimal_value.
  destruct (find (fun z => (z <=? c)%N && (c <? z + 10)%N) decimal_zeros)
    as [z |] eqn:E; [| discriminate].
  intros _. apply find_some in E. destruct E as [_ E].
  apply andb_true_iff in E. destruct E as [Hlo Hhi].
  apply N.leb_le in Hlo. apply N.ltb_lt in Hhi.
  eexists. split; [reflexivity | lia].
Qed.

Lemma py_int_digit_group_1_2 (s : str) :
  digit_group 1 2 s = true -> exists v, py_int s = Some v /\ 0 <= v <= 99.
Proof.
  intros H. apply digit_group_1_2 in H.
  destruct H as [(a & -> & Ha) | (a & b & -> & Ha & Hb)].
  - apply decimal_value_range in Ha. destruct Ha as (va & Ea & Hva).
    exists (10 * 0 + va). unfold py_int. cbn [int_digits]. rewrite Ea.
    split; [reflexivity | lia].
  - apply decimal_value_range in Ha. destruct Ha as (va & Ea & Hva).
    apply decimal_value_range in Hb. destruct Hb as (vb & Eb & Hvb).
    exists (10 * (10 * 0 + va) + vb). unfold py_int. cbn [int_digits].
    rewrite Ea, Eb. split; [reflexivity | lia].
Qed.

Lemma py_int_digit_group_4 (s : str) :
  digit_group 4 4 s = true -> exists v, py_int s = Some v /\ 0 <= v <= 9999.
Proof.
  intros H. apply digit_group_4 in H. destruct H as (a & b & c & d & -> & H).
  apply andb_true_iff in H. destruct H as [H Hd].
  apply andb_true_iff in H. destruct H as [H Hc].
  apply andb_true_iff in H. destruct H as [Ha Hb].
  apply decimal_value_range in Ha. destruct Ha as (va & Ea & Hva).
  apply decimal_value_range in Hb. destruct Hb as (vb & Eb & Hvb).
  apply decimal_value_range in Hc. destruct Hc as (vc & Ec & Hvc).
  apply decimal_value_range in Hd. destruct Hd as (vd & Ed & Hvd).
  exists (10 * (10 * (10 * (10 * 0 + va) + vb) + vc) + vd).
  unfold py_int. cbn [int_digits]. rewrite Ea, Eb, Ec, Ed.
  split; [reflexivity | lia].
Qed.

Lemma new_datetime_calendar (y m d : Z) :
  (calendar_date y m d -> new_datetime y m d = Some (mk_datetime y m d))
  /\ (~ calendar_date y m d -> new_datetime y m d = None).
Proof.
  unfold new_datetime, calendar_date.
  destruct ((1 <=? y) && (y <=? 9999) && (1 <=? m) && (m <=? 12)
            && (1 <=? d) && (d <=? days_in_month y m)) eqn:E.
  - split; [reflexivity |]. intros Hn. exfalso. apply Hn.
    repeat (apply andb_true_iff in E; destruct E as [E ?]).
    repeat match goal with H : (_ <=? _) = true |- _ => apply Z.leb_le in H end.
    lia.
  - split; [| reflexivity]. intros (Hy & Hm & Hd). exfalso.
    rewrite !andb_false_iff in E. rewrite !Z.leb_gt in E. lia.
Qed.

(** X2.  Every group [re.findall] captures converts with [int()]: the year
    reads as a number from 0 to 9999, the month and the day from 0 to 99,
    whatever Unicode digits the text uses.  So a matched date fails to become
    a [datetime] only by the calendar: year 0, a month outside 1..12 or a day
    outside the month. *)
Theorem captured_groups_convert (s : str) (g : groups) :
  In g (re_findall s) ->
  exists yv mv dv,
    py_int (fst (fst g)) = Some yv /\ py_int (snd (fst g)) = Some mv
    /\ py_int (snd g) = Some dv
    /\ 0 <= yv <= 9999 /\ 0 <= mv <= 99 /\ 0 <= dv <= 99
    /\ (calendar_date yv mv dv ->
        datetime_of_groups g = Some (mk_datetime yv mv dv))
    /\ (~ calendar_date yv mv dv -> datetime_of_groups g = None).
Proof.
  intros Hin. apply findall_groups_well_formed in Hin.
  destruct g as [[y m] d]. unfold date_groups in Hin.
  apply andb_true_iff in Hin. destruct Hin as [Hin Hd].
  apply andb_true_iff in Hin. destruct Hin as [Hy Hm].
  apply py_int_digit_group_4 in Hy. destruct Hy as (yv & Ey & Hyv).
  apply py_int_digit_group_1_2 in Hm. destruct Hm as (mv & Em & Hmv).
  apply py_int_digit_group_1_2 in Hd. destruct Hd as (dv & Ed & Hdv).
  exists yv, mv, dv. cbn [fst snd].
  repeat (split; [assumption |]).
  unfold datetime_of_groups. rewrite Ey, Em, Ed.
  apply new_datetime_calendar.
Qed.

Lemma captured_groups_convert_witness :
  exists yv mv dv,
    py_int (py "2024") = Some yv /\ py_int (py "2") = Some mv
    /\ py_int (py "30") = Some dv
    /\ datetime_of_groups (py "2024", py "2", py "30") = None.
Proof.
  destruct (captured_groups_convert impossible_period
              (py "2024", py "2", py "30") (or_introl eq_refl))
    as (yv & mv & dv & Ey & Em & Ed & _ & _ & _ & _ & Hbad).
  exists yv, mv, dv. repeat (split; [assumption |]).
  apply Hbad. cbn in Ey, Em, Ed. inversion Ey; inversion Em; inversion Ed; subst.
  unfold calendar_date. cbn. lia.
Defined.

(** ** Digits in front of a date *)

Lemma date_text_marker (g : groups) (rest : str) :
  date_groups g = true -> nth 4 (date_text g ++ rest) 0%N = nen.
Proof.
  destruct g as [[y m] d]. unfold date_groups. intros H.
  apply andb_true_iff in H. destruct H as [H _].
  apply andb_true_iff in H. destruct H as [Hy _].
  apply digit_group_4 in Hy. destruct Hy as (a & b & c & e & -> & _).
  reflexivity.
Qed.

Lemma nth_decimal_prefix (digits rest : str) (i : nat) :
  forallb is_decimal digits = true -> (i < length digits)%nat ->
  is_decimal (nth i (digits ++ rest) 0%N) = true.
Proof.
  intros Hall Hi. rewrite app_nth1 by exact Hi.
  rewrite forallb_forall in Hall. apply Hall. apply nth_In. exact Hi.
Qed.

Lemma match_here_after_digit (c : codepoint) (digits : str) (g : groups) (rest : str) :
  is_decimal c = true -> forallb is_decimal digits = true ->
  date_groups g = true ->
  match_here (c :: digits ++ date_text g ++ rest) = None.
Proof.
  intros Hc Hdigits Hg.
  destruct (match_here (c :: digits ++ date_text g ++ rest)) as [[g' n] |] eqn:E;
    [| reflexivity].
  exfalso. apply match_here_sound in E. destruct E as (Hg' & _ & rest' & Heq).
  pose proof (date_text_marker g' rest' Hg') as Hmark. rewrite <- Heq in Hmark.
  destruct g as [[y m] d]. unfold date_groups in Hg.
  apply andb_true_iff in Hg. destruct Hg as [Hg _].
  apply andb_true_iff in Hg. destruct Hg as [Hy _].
  pose proof Hy as Hy4. apply digit_group_4 in Hy4.
  destruct Hy4 as (y0 & y1 & y2 & y3 & -> & Hyd).
  assert (Hall : forallb is_decimal (c :: digits ++ [y0; y1; y2; y3]) = true).
  { cbn [forallb]. rewrite Hc, forallb_app, Hdigits. cbn [forallb andb].
    rewrite andb_true_r, !andb_assoc. exact Hyd. }
  assert (Hshape : c :: digits ++ date_text ([y0; y1; y2; y3], m, d) ++ rest
                   = (c :: digits ++ [y0; y1; y2; y3])
                       ++ nen :: m ++ gatsu :: d ++ [nichi] ++ rest).
  { unfold date_text. cbn [app]. rewrite <- !app_assoc. cbn [app].
    rewrite <- !app_assoc. reflexivity. }
  assert (Hmark' : nth 4 ((c :: digits ++ [y0; y1; y2; y3])
                            ++ nen :: m ++ gatsu :: d ++ [nichi] ++ rest) 0%N = nen).
  { rewrite <- Hshape. exact Hmark. }
  pose proof (nth_decimal_prefix _ (nen :: m ++ gatsu :: d ++ [nichi] ++ rest) 4 Hall)
    as Hdec.
  rewrite Hmark' in Hdec.
  assert (Hlen : (4 < length (c :: digits ++ [y0; y1; y2; y3]))%nat).
  { cbn [length]. rewrite length_app. cbn [length]. lia. }
  specialize (Hdec Hlen). destruct markers_are_not_digits as (Hnen & _).
  congruence.
Qed.

(** X17.  Digits written directly in front of a date are passed over: the
    date is still found, with the four digits next to 年 as its year.  A year
    written with five digits or more is therefore read by its last four. *)
Theorem findall_passes_leading_digits (digits : str) (g : groups) (rest : str) :
  forallb is_decimal digits = true -> date_groups g = true ->
  findall_from O (digits ++ date_text g ++ rest) = g :: findall_from O rest.
Proof.
  intros Hdigits Hg. induction digits as [| c digits IH].
  - cbn [app]. apply findall_after_match;
      [apply date_text_not_empty | apply match_here_date_text; exact Hg].
  - cbn [forallb] in Hdigits. apply andb_true_iff in Hdigits.
    destruct Hdigits as [Hc Hrest].
    cbn [app findall_from].
    rewrite (match_here_after_digit c digits g rest Hc Hrest Hg).
    apply IH. exact Hrest.
Qed.

Lemma findall_passes_leading_digits_witness :
  re_findall (py "12024年6月28日") = [(py "2024", py "6", py "28")].
Proof.
  exact (findall_passes_leading_digits (py "1") (py "2024", py "6", py "28") []
           eq_refl eq_refl).
Defined.

(** ** The period formatter *)

(** C5, amended.  When the pattern occurs exactly twice in the period text
    and both occurrences are calendar dates, [parse_period] returns the first
    date, a hyphen and the second date, in the order of the text, whichever of
    the two is the earlier.  Each date is its [%Y] year followed by the month
    and the day on two digits each, and reads as the number
    year*10000 + month*100 + day; it is eight ASCII digits when the C library
    pads [%Y] or the year has four digits. *)
Theorem parse_period_two_dates (w : World) (s : str) (h : list event)
    (g0 g1 : groups) (t0 t1 : datetime) :
  re_findall s = [g0; g1] ->
  datetime_of_groups g0 = Some t0 ->
  datetime_of_groups g1 = Some t1 ->
  let pads := libc_pads_year w in
  let start := strftime_Ymd pads t0 in
  let stop := strftime_Ymd pads t1 in
  parse_period w s h = (Returned (Some (start ++ hyphen :: stop)), [])
  /\ start = strftime_Y pads (year t0) ++ zfill2 (month t0) ++ zfill2 (day t0)
  /\ stop = strftime_Y pads (year t1) ++ zfill2 (month t1) ++ zfill2 (day t1)
  /\ py_int start = Some (ordinal t0)
  /\ py_int stop = Some (ordinal t1)
  /\ (pads = true \/ 1000 <= year t0 ->
      start = zfill4 (year t0) ++ zfill2 (month t0) ++ zfill2 (day t0)
      /\ length start = 8%nat /\ forallb is_ascii_digit start = true)
  /\ (pads = true \/ 1000 <= year t1 ->
      stop = zfill4 (year t1) ++ zfill2 (month t1) ++ zfill2 (day t1)
      /\ length stop = 8%nat /\ forallb is_ascii_digit stop = true).
Proof.
  intros Hfind H0 H1 pads start stop.
  pose proof (datetime_of_groups_valid _ _ H0) as (Hy0 & Hm0 & Hd0).
  pose proof (datetime_of_groups_valid _ _ H1) as (Hy1 & Hm1 & Hd1).
  pose proof (days_in_month_le_31 (year t0) (month t0)) as Hb0.
  pose proof (days_in_month_le_31 (year t1) (month t1)) as Hb1.
  split.
  { unfold parse_period. rewrite Hfind, H0, H1. reflexivity. }
  split; [reflexivity |]. split; [reflexivity |].
  split; [apply py_int_strftime; lia |].
  split; [apply py_int_strftime; lia |].
  split; intros Hp; apply strftime_padded_shape; auto; lia.
Qed.

Lemma parse_period_two_dates_witness :
  parse_period fair_world docstring_period []
  = (Returned (Some (py "20240628-20240630")), []).
Proof.
  pose proof (parse_period_two_dates fair_world docstring_period []
                (py "2024", py "6", py "28") (py "2024", py "6", py "30")
                (mk_datetime 2024 6 28) (mk_datetime 2024 6 30)
                eq_refl eq_refl eq_refl) as H.
  exact (proj1 H).
Defined.

(** C5 as stated fails: the text below holds exactly two valid dates, and the
    formatted period starts with the later one. *)
Lemma parse_period_keeps_reversed_dates :
  re_findall reversed_period
  = [(py "2024", py "6", py "30"); (py "2024", py "6", py "28")]
  /\ datetime_of_groups (py "2024", py "6", py "30") = Some (mk_datetime 2024 6 30)
  /\ datetime_of_groups (py "2024", py "6", py "28") = Some (mk_datetime 2024 6 28)
  /\ parse_period fair_world reversed_period []
     = (Returned (Some (py "20240630-20240628")), [])
  /\ ~ ordinal (mk_datetime 2024 6 30) <= ordinal (mk_datetime 2024 6 28).
Proof.
  repeat split; try reflexivity.
  unfold ordinal; cbn. lia.
Qed.

(** [parse_period] never raises: whatever the text, it returns a string or
    [None]. *)
Lemma parse_period_returns (w : World) (s : str) (h : list event) :
  exists v es, parse_period w s h = (Returned v, es)
               /\ runs es = [] /\ sleeps es = [] /\ uploads es = []
               /\ removes es = [] /\ printed es = [].
Proof.
  unfold parse_period.
  destruct (re_findall s) as [| g0 [| g1 [| g2 rest]]];
    try (eexists; eexists; split; [reflexivity | repeat split; reflexivity]).
  destruct (datetime_of_groups g0), (datetime_of_groups g1);
    eexists; eexists; (split; [reflexivity | repeat split; reflexivity]).
Qed.

Lemma parse_period_any_history (w : World) (s : str) (h : list event) :
  parse_period w s h = parse_period w s [].
Proof.
  unfold parse_period.
  destruct (re_findall s) as [| g0 [| g1 [| g2 rest]]]; try reflexivity.
  destruct (datetime_of_groups g0), (datetime_of_groups g1); reflexivity.
Qed.

Lemma parse_period_parsed (w : World) (s : str) (h : list event) :
  exists es, parse_period w s h = (Returned (parsed_period w s), es)
             /\ runs es = [] /\ sleeps es = [] /\ uploads es = []
             /\ removes es = [] /\ printed es = [].
Proof.
  destruct (parse_period_returns w s h) as (v & es & Hrun & Hrest).
  exists es. split; [| exact Hrest].
  unfold parsed_period. rewrite <- (parse_period_any_history w s h), Hrun.
  reflexivity.
Qed.

(** X3.  On a text made of two well-formed, valid dates with text free of
    digits before, between and after them, [parse_period] returns the two
    dates formatted, in the order of the text, and logs nothing. *)
Lemma parse_period_plain_text (w : World) (pre mid post : str)
    (g0 g1 : groups) (t0 t1 : datetime) (h : list event) :
  digit_free pre = true -> digit_free mid = true -> digit_free post = true ->
  date_groups g0 = true -> date_groups g1 = true ->
  datetime_of_groups g0 = Some t0 -> datetime_of_groups g1 = Some t1 ->
  parse_period w (pre ++ date_text g0 ++ mid ++ date_text g1 ++ post) h
  = (Returned (Some (strftime_Ymd (libc_pads_year w) t0 ++ hyphen
                       :: strftime_Ymd (libc_pads_year w) t1)), []).
Proof.
  intros Hpre Hmid Hpost Hg0 Hg1 H0 H1. unfold parse_period.
  rewrite (re_findall_two_dates pre mid post g0 g1) by assumption.
  rewrite H0, H1. reflexivity.
Qed.

Lemma parse_period_plain_text_witness :
  parse_period fair_world
    (py "期間：" ++ date_text (py "２０２４", py "６", py "２８") ++ py "から"
       ++ date_text (py "2024", py "7", py "1") ++ py "まで") []
  = (Returned (Some (py "20240628-20240701")), []).
Proof.
  exact (parse_period_plain_text fair_world (py "期間：") (py "から") (py "まで")
           (py "２０２４", py "６", py "２８") (py "2024", py "7", py "1")
           (mk_datetime 2024 6 28) (mk_datetime 2024 7 1) []
           eq_refl eq_refl eq_refl eq_refl eq_refl eq_refl eq_refl).
Defined.

Example parse_period_fullwidth_digits :
  parse_period fair_world (py "期間：２０２４年６月２８日から2024年7月1日まで") []
  = (Returned (Some (py "20240628-20240701")), []).
Proof. reflexivity. Qed.

(** X4.  [parse_period] never raises and never prints.  It returns a string
    exactly when the text holds exactly two matches that are both calendar
    dates, and then logs nothing; in every other case it returns [None] after
    logging exactly one error: the "not the expected format" one when the
    number of matches is not two, the "error while parsing" one when a date is
    not on the calendar. *)
Theorem parse_period_failure (w : World) (s : str) (h : list event) :
  exists es,
    parse_period w s h = (Returned (parsed_period w s), es)
    /\ (parsed_period w s <> None
        <-> exists g0 g1 t0 t1,
              re_findall s = [g0; g1] /\ datetime_of_groups g0 = Some t0
              /\ datetime_of_groups g1 = Some t1)
    /\ (parsed_period w s <> None -> es = [])
    /\ (length (re_findall s) <> 2%nat ->
        parsed_period w s = None /\ es = [Log ERROR (PeriodNotInFormat s)])
    /\ (length (re_findall s) = 2%nat -> parsed_period w s = None ->
        es = [Log ERROR (PeriodParseError s)]).
Proof.
  unfold parsed_period. rewrite (parse_period_any_history w s h).
  unfold parse_period.
  assert (Hother : length (re_findall s) <> 2%nat ->
            exists es,
              (logging ERROR (PeriodNotInFormat s) ;; ret None) []
              = (Returned (@None str), es)
              /\ (@None str <> None
                  <-> exists g0 g1 t0 t1,
                        re_findall s = [g0; g1] /\ datetime_of_groups g0 = Some t0
                        /\ datetime_of_groups g1 = Some t1)
              /\ (@None str <> None -> es = [])
              /\ (length (re_findall s) <> 2%nat ->
                  @None str = None /\ es = [Log ERROR (PeriodNotInFormat s)])
              /\ (length (re_findall s) = 2%nat -> @None str = None ->
                  es = [Log ERROR (PeriodParseError s)])).
  { intros Hlen. eexists. split; [reflexivity |].
    split.
    { split; [congruence |].
      intros (g0 & g1 & t0 & t1 & Hf & _). rewrite Hf in Hlen.
      exfalso. apply Hlen. reflexivity. }
    split; [congruence |].
    split; [intros _; split; reflexivity | intros Heq; contradiction]. }
  destruct (re_findall s) as [| g0 [| g1 [| g2 rest]]] eqn:Ef;
    try (apply Hother; cbn [length]; lia).
  clear Hother.
  destruct (datetime_of_groups g0) as [t0 |] eqn:E0;
    destruct (datetime_of_groups g1) as [t1 |] eqn:E1;
    eexists; (split; [reflexivity |]); unfold ret, logging, emit, bind;
    cbn [fst snd length].
  - split; [split; [| discriminate] |].
    { intros _. exists g0, g1, t0, t1. repeat split; assumption. }
    split; [reflexivity |].
    split; [intros Hlen; exfalso; apply Hlen; reflexivity | discriminate].
  - split; [split; [congruence |] |].
    { intros (a & b & ta & tb & Hf & _ & Hb). inversion Hf; subst. congruence. }
    split; [congruence |].
    split; [intros Hlen; exfalso; apply Hlen; reflexivity | reflexivity].
  - split; [split; [congruence |] |].
    { intros (a & b & ta & tb & Hf & Ha & _). inversion Hf; subst. congruence. }
    split; [congruence |].
    split; [intros Hlen; exfalso; apply Hlen; reflexivity | reflexivity].
  - split; [split; [congruence |] |].
    { intros (a & b & ta & tb & Hf & Ha & _). inversion Hf; subst. congruence. }
    split; [congruence |].
    split; [intros Hlen; exfalso; apply Hlen; reflexivity | reflexivity].
Qed.

Lemma parse_period_failure_witness :
  parse_period fair_world iso_period []
  = (Returned None, [Log ERROR (PeriodNotInFormat iso_period)]).
Proof.
  destruct (parse_period_failure fair_world iso_period [])
    as (es & Hrun & _ & _ & Hcount & _).
  destruct (Hcount ltac:(discriminate)) as [Hnone ->].
  rewrite Hrun, Hnone. reflexivity.
Defined.

(** ** Running the monad *)

Lemma py_range_nil (lo hi : Z) : hi <= lo -> py_range lo hi = [].
Proof.
  intros H. unfold py_range. replace (Z.to_nat (hi - lo)) with O by lia.
  reflexivity.
Qed.

Lemma py_range_cons (lo hi : Z) :
  lo < hi -> py_range lo hi = lo :: py_range (lo + 1) hi.
Proof.
  intros H. unfold py_range.
  replace (Z.to_nat (hi - lo)) with (S (Z.to_nat (hi - (lo + 1)))) by lia.
  cbn [seq map]. f_equal; [lia |].
  rewrite <- seq_shift, map_map. apply map_ext. intros i. lia.
Qed.

Lemma py_range_length (lo hi : Z) : length (py_range lo hi) = Z.to_nat (hi - lo).
Proof. unfold py_range. rewrite length_map, length_seq. reflexivity. Qed.

Lemma runs_app (a b : list event) : runs (a ++ b) = runs a ++ runs b.
Proof. apply flat_map_app. Qed.

Lemma sleeps_app (a b : list event) : sleeps (a ++ b) = sleeps a ++ sleeps b.
Proof. apply flat_map_app. Qed.

Lemma uploads_app (a b : list event) : uploads (a ++ b) = uploads a ++ uploads b.
Proof. apply flat_map_app. Qed.

Lemma removes_app (a b : list event) : removes (a ++ b) = removes a ++ removes b.
Proof. apply flat_map_app. Qed.

Lemma printed_app (a b : list event) : printed (a ++ b) = printed a ++ printed b.
Proof. apply flat_map_app. Qed.

Lemma verdicts_app (a b : list event) : verdicts (a ++ b) = verdicts a ++ verdicts b.
Proof. unfold verdicts. rewrite printed_app. apply flat_map_app. Qed.

Lemma started_app (a b : list event) : started (a ++ b) = started a ++ started b.
Proof. unfold started. rewrite printed_app. apply flat_map_app. Qed.

Lemma run_bind {A B : Type} (m : M A) (f : A -> M B) (h : list event)
    (a : A) (es : list event) :
  m h = (Returned a, es) ->
  bind m f h = (fst (f a (h ++ es)), es ++ snd (f a (h ++ es))).
Proof.
  intros Hm. unfold bind. rewrite Hm. destruct (f a (h ++ es)). reflexivity.
Qed.

Lemma run_bind_raised {A B : Type} (m : M A) (f : A -> M B) (h : list event)
    (e : exn) (es : list event) :
  m h = (Raised e, es) -> bind m f h = (Raised e, es).
Proof. intros Hm. unfold bind. rewrite Hm. reflexivity. Qed.

Lemma run_emit {B : Type} (ev : event) (k : M B) (h : list event) :
  (emit ev ;; k) h = (fst (k (h ++ [ev])), ev :: snd (k (h ++ [ev]))).
Proof. apply (run_bind (emit ev) (fun _ => k) h tt [ev]). reflexivity. Qed.


(** Unfold the trace readers over the known front of a trace. *)
Ltac read_trace :=
  unfold verdicts, started, runs, sleeps, uploads, removes, printed in *;
  cbn [flat_map app verdict_of map].

Lemma run_sleep_cases {B : Type} (seconds : Z) (k : M B) (h : list event) :
  (time_sleep seconds ;; k) h
  = if seconds <? 0 then (Raised ValueError, [])
    else (fst (k (h ++ [Sleep seconds])),
          Sleep seconds :: snd (k (h ++ [Sleep seconds]))).
Proof.
  unfold time_sleep. destruct (seconds <? 0); [reflexivity | apply run_emit].
Qed.

Lemma silent_verdicts (es : list event) :
  printed es = [] -> verdicts es = [] /\ started es = [].
Proof. intros H. unfold verdicts, started. rewrite H. split; reflexivity. Qed.

(** ** The download retry loop *)

Section FetchThatNeverSucceeds.

Variable w : World.
Variables api_key url download_path : str.
Variables retries backoff_factor : Z.

Local Abbreviation cmd := (curl_command api_key url download_path).

Hypothesis fetch_fails :
  forall h, run_failed (subprocess_run w h cmd) = true.
Hypothesis backoff_nonneg : 0 <= backoff_factor.


End FetchThatNeverSucceeds.

(** Whatever the world answers, [download_file] only logs, runs the [curl]
    command and sleeps. *)
Lemma download_attempts_frame (w : World) (api_key url download_path : str)
    (retries backoff_factor : Z) (attempts : list Z) :
  forall h,
    let es := snd (download_attempts w api_key url download_path retries
                                     backoff_factor attempts h) in
    uploads es = [] /\ removes es = [] /\ printed es = []
    /\ Forall (eq (curl_command api_key url download_path)) (runs es).
Proof.
  induction attempts as [| a rest IH]; intros h.
  { repeat split; constructor. }
  cbn [download_attempts]. unfold logging. rewrite run_emit.
  set (h1 := h ++ [Log INFO (DownloadAttempt a retries url)]).
  set (cmd := curl_command api_key url download_path) in *.
  rewrite (run_bind _ _ h1 (subprocess_run w h1 cmd)
                    [Run cmd (subprocess_run w h1 cmd)]) by reflexivity.
  destruct (subprocess_run w h1 cmd) as [returncode [error_message |] |];
    try (destruct (returncode =? 0);
         [solve [cbn; repeat split; repeat constructor] |]);
    rewrite run_emit;
    (destruct (a <? retries);
     [ rewrite run_emit, run_sleep_cases;
       destruct (backoff_factor * a <? 0);
       [ cbn; repeat split; repeat constructor
       | match goal with |- context [download_attempts _ _ _ _ _ _ _ ?h'] =>
           destruct (IH h') as (Hu & Hd & Hp & Hr) end;
         cbn [fst snd]; read_trace; rewrite Hu, Hd, Hp;
         repeat split; constructor; [reflexivity | exact Hr] ]
     | cbn; repeat split; repeat constructor ]).
Qed.



(** ** Every run of the download loop *)

Lemma run_results_app (a b : list event) :
  run_results (a ++ b) = run_results a ++ run_results b.
Proof. apply flat_map_app. Qed.

Lemma upload_answers_app (a b : list event) :
  upload_answers (a ++ b) = upload_answers a ++ upload_answers b.
Proof. apply flat_map_app. Qed.


Lemma setup_calls_app (a b : list event) :
  setup_calls (a ++ b) = setup_calls a ++ setup_calls b.
Proof. apply filter_app. Qed.

Section DownloadAttempt.

Variable w : World.
Variables api_key url download_path : str.
Variables retries backoff_factor : Z.

Local Abbreviation cmd := (curl_command api_key url download_path).
Local Abbreviation attempts_from :=
  (download_attempts w api_key url download_path retries backoff_factor).

(** What is logged about a failed attempt: the error, and the notice of the
    coming retry. *)
Local Abbreviation error_of r :=
  (match r with
   | Completed _ (Some error_message) => Log ERROR (CurlError error_message)
   | _ => Log ERROR (DownloadUnexpectedError url)
   end).
Local Abbreviation notice_of r a :=
  (match r with
   | Completed _ (Some _) =>
     Log WARNING (DownloadFailedRetrying url (backoff_factor * a) (a + 1) retries)
   | _ => Log INFO (RetryingIn (backoff_factor * a) (a + 1) retries)
   end).

Lemma download_attempt_unfold (a : Z) (rest : list Z) (h : list event) :
  let start := Log INFO (DownloadAttempt a retries url) in
  let r := subprocess_run w (h ++ [start]) cmd in
  attempts_from (a :: rest) h
  = if run_failed r then
      if a <? retries then
        if backoff_factor * a <? 0 then
          (Raised ValueError, [start; Run cmd r; error_of r; notice_of r a])
        else
          let pre := [start; Run cmd r; error_of r; notice_of r a;
                      Sleep (backoff_factor * a)] in
          (fst (attempts_from rest (h ++ pre)),
           pre ++ snd (attempts_from rest (h ++ pre)))
      else
        (Returned (Some false),
         [start; Run cmd r; error_of r; Log ERROR (MaxRetriesReachedUrl url)])
    else
      (Returned (Some true), [start; Run cmd r; Log INFO (DownloadComplete url)]).
Proof.
  intros start r. cbn [download_attempts]. unfold logging. rewrite run_emit.
  fold start.
  rewrite (run_bind _ _ (h ++ [start]) r [Run cmd r]) by reflexivity.
  destruct r as [returncode [error_message |] |] eqn:Er; cbn [run_failed].
  - destruct (returncode =? 0); cbn [negb]; [reflexivity |].
    rewrite run_emit. destruct (a <? retries); [| reflexivity].
    rewrite run_emit, run_sleep_cases.
    destruct (backoff_factor * a <? 0); [reflexivity |].
    cbn [fst snd app]. rewrite <- !app_assoc. reflexivity.
  - destruct (returncode =? 0); cbn [negb]; [reflexivity |].
    rewrite run_emit. destruct (a <? retries); [| reflexivity].
    rewrite run_emit, run_sleep_cases.
    destruct (backoff_factor * a <? 0); [reflexivity |].
    cbn [fst snd app]. rewrite <- !app_assoc. reflexivity.
  - rewrite run_emit. destruct (a <? retries); [| reflexivity].
    rewrite run_emit, run_sleep_cases.
    destruct (backoff_factor * a <? 0); [reflexivity |].
    cbn [fst snd app]. rewrite <- !app_assoc. reflexivity.
Qed.


End DownloadAttempt.



Example download_succeeds_on_third_run :
  exists es,
    download_file (flaky_fetch_world 2) (py "secret") (py "https://x/file")
                  (py "./data/output/A1.zip") 5 3 []
    = (Returned (Some true), es)
    /\ length (runs es) = 3%nat /\ sleeps es = [3; 6].
Proof. eexists. split; [reflexivity |]. split; reflexivity. Qed.

(** ** The upload retry loop *)

Section Upload.

Variable w : World.
Variables file_path bucket s3_key storage_class : str.
Variables retries backoff_factor : Z.

Local Abbreviation attempts_from :=
  (upload_attempts w file_path bucket s3_key storage_class retries backoff_factor).
Local Abbreviation call := (UploadFile file_path bucket s3_key storage_class).
Local Abbreviation answer :=
  (fun h => s3_upload_file w h file_path bucket s3_key storage_class).

Lemma upload_attempt_unfold (a : Z) (rest : list Z) (h : list event) :
  attempts_from (a :: rest) h
  = match answer h with
    | UploadReturned =>
      (Returned (Some true), [call UploadReturned; Log INFO (UploadComplete s3_key)])
    | UploadRaised FileNotFoundError =>
      (Returned (Some false),
       [call (UploadRaised FileNotFoundError); Log ERROR (FileNotFound file_path)])
    | UploadRaised NoCredentialsError =>
      (Returned (Some false),
       [call (UploadRaised NoCredentialsError); Log ERROR CredentialsNotFound])
    | UploadRaised ClientError =>
      if a <? retries then
        if backoff_factor * a <? 0 then
          (Raised ValueError,
           [call (UploadRaised ClientError); Log ERROR UploadError;
            Log INFO (RetryingIn (backoff_factor * a) (a + 1) retries)])
        else
          let pre := [call (UploadRaised ClientError); Log ERROR UploadError;
                      Log INFO (RetryingIn (backoff_factor * a) (a + 1) retries);
                      Sleep (backoff_factor * a)] in
          (fst (attempts_from rest (h ++ pre)),
           pre ++ snd (attempts_from rest (h ++ pre)))
      else
        (Returned (Some false),
         [call (UploadRaised ClientError); Log ERROR UploadError;
          Log ERROR (MaxRetriesReachedKey s3_key)])
    | UploadRaised e => (Raised e, [call (UploadRaised e)])
    end.
Proof.
  cbn [upload_attempts]. unfold logging.
  rewrite (run_bind _ _ h (s3_upload_file w h file_path bucket s3_key storage_class)
             [UploadFile file_path bucket s3_key storage_class
                (s3_upload_file w h file_path bucket s3_key storage_class)])
    by reflexivity.
  destruct (s3_upload_file w h file_path bucket s3_key storage_class) as [| e];
    [reflexivity |].
  destruct e; try reflexivity.
  rewrite run_emit. destruct (a <? retries); [| reflexivity].
  rewrite run_emit, run_sleep_cases.
  destruct (backoff_factor * a <? 0); [reflexivity |].
  cbn [fst snd app]. rewrite <- !app_assoc. reflexivity.
Qed.

(** Whatever the world answers, [upload_to_s3] only logs, calls
    [upload_file] with its own arguments and sleeps. *)
Lemma upload_attempts_frame (attempts : list Z) :
  forall h,
    let es := snd (attempts_from attempts h) in
    runs es = [] /\ removes es = [] /\ printed es = []
    /\ Forall (eq (file_path, bucket, s3_key, storage_class)) (uploads es).
Proof.
  induction attempts as [| a rest IH]; intros h.
  { repeat split; constructor. }
  rewrite upload_attempt_unfold. cbv zeta.
  destruct (answer h) as [| e]; [cbn; repeat split; repeat constructor |].
  destruct e; try solve [cbn; repeat split; repeat constructor].
  destruct (a <? retries); [| cbn; repeat split; repeat constructor].
  destruct (backoff_factor * a <? 0); [cbn; repeat split; repeat constructor |].
  match goal with |- context [attempts_from rest ?h'] =>
    destruct (IH h') as (Hr & Hd & Hp & Hu) end.
  cbn [fst snd]. read_trace. rewrite Hr, Hd, Hp.
  repeat split. constructor; [reflexivity | exact Hu].
Qed.



End Upload.

(** ** Every run of the upload loop *)




(** ** One pass of the loop *)

Section LoopBody.

Variable w : World.
Variable cfg : Config.
Variables idx total_files : Z.
Variable record : ManifestRow.

(** The pass spelled out along the calls it makes: the period is formatted,
    the file is fetched, uploaded and removed, each call seeing the trace of
    everything before it. *)
Lemma loop_body_unfold (h : list event) (v : option str) (es0 : list event) :
  parse_period w (period_str record) h = (Returned v, es0) ->
  let file_name := file_name_of (delivery_id record) v in
  let download_path := os_path_join (DOWNLOAD_DIR cfg) file_name in
  let pre1 := es0 ++ [Print (StartDownload idx total_files file_name);
                      Log INFO (StartDownloadFrom idx total_files file_name
                                                  (url record))] in
  loop_body w cfg idx total_files record h
  = match download_file w (API_KEY cfg) (url record) download_path
                        (RETRIES cfg) (BACKOFF_FACTOR cfg) (h ++ pre1) with
    | (Raised e, es1) => (Raised e, pre1 ++ es1)
    | (Returned success, es1) =>
      if falsy success then
        (Returned tt,
         pre1 ++ es1 ++ [Print (DownloadFailedSkipping (url record));
                         Log WARNING (DownloadFailedSkipping (url record))])
      else
        let pre2 := pre1 ++ es1
                    ++ [Print (StartUpload idx total_files file_name);
                        Log INFO (StartUploadKey idx total_files file_name
                                                 file_name)] in
        match upload_to_s3 w download_path (S3_BUCKET_NAME cfg) file_name
                           (S3_STORAGE_CLASS cfg) (RETRIES cfg)
                           (BACKOFF_FACTOR cfg) (h ++ pre2) with
        | (Raised e, es2) => (Raised e, pre2 ++ es2)
        | (Returned upload_success, es2) =>
          if falsy upload_success then
            (Returned tt,
             pre2 ++ es2 ++ [Print (UploadFailedKeepingFile download_path);
                             Log WARNING (UploadFailedKeepingFile download_path)])
          else
            let r := os_remove w (h ++ pre2 ++ es2) download_path in
            (Returned tt,
             pre2 ++ es2 ++ Remove download_path r
               :: match r with
                  | RemoveReturned =>
                    [Print (LocalFileRemoved idx total_files download_path);
                     Log INFO (LocalFileRemoved idx total_files download_path)]
                  | RemoveRaisedOSError =>
                    [Print (RemoveFailed download_path);
                     Log WARNING (RemoveFailed download_path)]
                  end)
        end
    end.
Proof.
  intros Hparse file_name download_path pre1.
  unfold loop_body.
  erewrite run_bind; cycle 1.
  { unfold try_except. erewrite run_bind by exact Hparse. reflexivity. }
  cbn [fst snd ret]. rewrite !app_nil_r.
  fold file_name. fold download_path.
  unfold print, logging. rewrite !run_emit. cbn [fst snd].
  rewrite <- !app_assoc. cbn [app]. fold pre1.
  destruct (download_file w (API_KEY cfg) (url record) download_path
                          (RETRIES cfg) (BACKOFF_FACTOR cfg) (h ++ pre1))
    as [[success | e] es1] eqn:Edl.
  2:{ erewrite run_bind_raised by exact Edl. cbn [fst snd].
      unfold pre1. rewrite <- !app_assoc. reflexivity. }
  erewrite run_bind by exact Edl.
  destruct (falsy success).
  { rewrite !run_emit. cbn [fst snd emit].
    unfold pre1. rewrite <- !app_assoc. reflexivity. }
  rewrite !run_emit. cbn [fst snd]. cbv zeta.
  rewrite <- !app_assoc. cbn [app].
  replace (h ++ pre1 ++ es1 ++ _) with
    (h ++ pre1 ++ es1
       ++ [Print (StartUpload idx total_files file_name);
           Log INFO (StartUploadKey idx total_files file_name file_name)]).
  2:{ unfold pre1. rewrite <- !app_assoc. reflexivity. }
  destruct (upload_to_s3 w download_path (S3_BUCKET_NAME cfg) file_name
              (S3_STORAGE_CLASS cfg) (RETRIES cfg) (BACKOFF_FACTOR cfg) _)
    as [[upload_success | e] es2] eqn:Eul.
  2:{ erewrite run_bind_raised by exact Eul. cbn [fst snd].
      unfold pre1. rewrite <- !app_assoc. reflexivity. }
  erewrite run_bind by exact Eul.
  destruct (falsy upload_success).
  { rewrite !run_emit. cbn [fst snd emit].
    unfold pre1. rewrite <- !app_assoc. reflexivity. }
  erewrite run_bind by reflexivity.
  rewrite <- !app_assoc. cbn [app].
  match goal with |- context [os_remove w ?h' download_path] =>
    replace h' with (h ++ pre1 ++ es1
       ++ [Print (StartUpload idx total_files file_name);
           Log INFO (StartUploadKey idx total_files file_name file_name)] ++ es2)
      by (unfold pre1; rewrite <- !app_assoc; reflexivity) end.
  destruct (os_remove w _ download_path);
    rewrite !run_emit; cbn [fst snd emit];
    unfold pre1; rewrite <- !app_assoc; reflexivity.
Qed.

End LoopBody.

(** What every pass of the loop does, whatever the world answers: it announces
    the download of the file named after the record, runs only the record's
    [curl] command, uploads only the downloaded file under the file name as
    key, removes nothing but that file, and, when it ends normally, prints
    exactly one verdict, which is never that of a skipped record. *)
Lemma loop_body_report (w : World) (cfg : Config) (idx total_files : Z)
    (record : ManifestRow) (h : list event) :
  let file_name :=
    file_name_of (delivery_id record) (parsed_period w (period_str record)) in
  let download_path := os_path_join (DOWNLOAD_DIR cfg) file_name in
  let es := snd (loop_body w cfg idx total_files record h) in
  started es = [file_name]
  /\ Forall (eq (curl_command (API_KEY cfg) (url record) download_path)) (runs es)
  /\ Forall (eq (download_path, S3_BUCKET_NAME cfg, file_name, S3_STORAGE_CLASS cfg))
            (uploads es)
  /\ Forall (eq download_path) (removes es)
  /\ match fst (loop_body w cfg idx total_files record h) with
     | Returned _ => exists v, verdicts es = [v] /\ v <> SkippedNoName
     | Raised _ => verdicts es = []
     end.
Proof.
  intros file_name download_path.
  destruct (parse_period_parsed w (period_str record) h)
    as (es0 & Hparse & Hr0 & Hs0 & Hu0 & Hd0 & Hp0).
  destruct (silent_verdicts _ Hp0) as [Hv0 Hst0].
  rewrite (loop_body_unfold w cfg idx total_files record h _ _ Hparse).
  cbv zeta. fold file_name. fold download_path.
  set (pre1 := es0 ++ [Print (StartDownload idx total_files file_name);
                       Log INFO (StartDownloadFrom idx total_files file_name
                                                   (url record))]).
  pose proof (download_attempts_frame w (API_KEY cfg) (url record) download_path
                (RETRIES cfg) (BACKOFF_FACTOR cfg)
                (py_range 1 (RETRIES cfg + 1)) (h ++ pre1)) as Hf1.
  fold (download_file w (API_KEY cfg) (url record) download_path
                      (RETRIES cfg) (BACKOFF_FACTOR cfg)) in Hf1.
  destruct (download_file w (API_KEY cfg) (url record) download_path
                          (RETRIES cfg) (BACKOFF_FACTOR cfg) (h ++ pre1))
    as [[success | e] es1].
  2:{ cbn [fst snd] in *. destruct Hf1 as (Hu1 & Hd1 & Hp1 & Hr1).
      destruct (silent_verdicts _ Hp1) as [Hv1 Hst1].
      unfold pre1.
      rewrite !started_app, !runs_app, !uploads_app, !removes_app, !verdicts_app.
      rewrite Hst0, Hr0, Hu0, Hd0, Hv0, Hst1, Hu1, Hd1, Hv1.
      read_trace. repeat split; try constructor. exact Hr1. }
  cbn [snd] in Hf1. destruct Hf1 as (Hu1 & Hd1 & Hp1 & Hr1).
  destruct (silent_verdicts _ Hp1) as [Hv1 Hst1].
  destruct (falsy success).
  { cbn [fst snd]. unfold pre1.
    rewrite !started_app, !runs_app, !uploads_app, !removes_app, !verdicts_app.
    rewrite Hst0, Hr0, Hu0, Hd0, Hv0, Hst1, Hu1, Hd1, Hv1.
    read_trace. rewrite app_nil_r.
    repeat split; try constructor; try exact Hr1.
    exists FailedDownload. split; [reflexivity | discriminate]. }
  set (pre2 := pre1 ++ es1
               ++ [Print (StartUpload idx total_files file_name);
                   Log INFO (StartUploadKey idx total_files file_name file_name)]).
  pose proof (upload_attempts_frame w download_path (S3_BUCKET_NAME cfg) file_name
                (S3_STORAGE_CLASS cfg) (RETRIES cfg) (BACKOFF_FACTOR cfg)
                (py_range 1 (RETRIES cfg + 1)) (h ++ pre2)) as Hf2.
  fold (upload_to_s3 w download_path (S3_BUCKET_NAME cfg) file_name
                     (S3_STORAGE_CLASS cfg) (RETRIES cfg) (BACKOFF_FACTOR cfg))
    in Hf2.
  assert (Hpre2 : started pre2 = [file_name] /\ runs pre2 = runs es1
                  /\ uploads pre2 = [] /\ removes pre2 = [] /\ verdicts pre2 = []).
  { unfold pre2, pre1.
    rewrite !started_app, !runs_app, !uploads_app, !removes_app, !verdicts_app.
    rewrite Hst0, Hr0, Hu0, Hd0, Hv0, Hst1, Hu1, Hd1, Hv1.
    read_trace. rewrite app_nil_r. repeat split; reflexivity. }
  destruct Hpre2 as (Hst2 & Hr2 & Hu2 & Hd2 & Hv2).
  destruct (upload_to_s3 w download_path (S3_BUCKET_NAME cfg) file_name
              (S3_STORAGE_CLASS cfg) (RETRIES cfg) (BACKOFF_FACTOR cfg)
              (h ++ pre2))
    as [[upload_success | e] es2].
  2:{ cbn [fst snd] in *. destruct Hf2 as (Hr3 & Hd3 & Hp3 & Hu3).
      destruct (silent_verdicts _ Hp3) as [Hv3 Hst3].
      rewrite !started_app, !runs_app, !uploads_app, !removes_app, !verdicts_app.
      rewrite Hst2, Hr2, Hu2, Hd2, Hv2, Hst3, Hr3, Hd3, Hv3.
      rewrite !app_nil_r. repeat split; try constructor; assumption. }
  cbn [snd] in Hf2. destruct Hf2 as (Hr3 & Hd3 & Hp3 & Hu3).
  destruct (silent_verdicts _ Hp3) as [Hv3 Hst3].
  destruct (falsy upload_success).
  { cbn [fst snd].
    rewrite !started_app, !runs_app, !uploads_app, !removes_app, !verdicts_app.
    rewrite Hst2, Hr2, Hu2, Hd2, Hv2, Hst3, Hr3, Hd3, Hv3.
    read_trace. rewrite !app_nil_r.
    repeat split; try constructor; try assumption.
    exists FailedUpload. split; [reflexivity | discriminate]. }
  cbn [fst snd].
  rewrite !started_app, !runs_app, !uploads_app, !removes_app, !verdicts_app.
  rewrite Hst2, Hr2, Hu2, Hd2, Hv2, Hst3, Hr3, Hd3, Hv3.
  destruct (os_remove w (h ++ pre2 ++ es2) download_path);
    read_trace; rewrite !app_nil_r;
    (repeat split; try assumption; [repeat constructor |]).
  - exists Cleaned. split; [reflexivity | discriminate].
  - exists UploadedNotCleaned. split; [reflexivity | discriminate].
Qed.

(** ** Retry budgets *)





(** C10.  With a retry count of 0, [download_file] and [upload_to_s3] return
    [None] without calling [curl] or [upload_file] and without logging;
    [not None] being true, every record of the batch is reported as a failed
    download, and the whole run issues no fetch, no upload and no removal. *)
Theorem zero_retries_never_fetch (w : World) (cfg : Config) (total_files : Z) :
  RETRIES cfg = 0 ->
  (forall api_key url download_path backoff_factor h,
      download_file w api_key url download_path 0 backoff_factor h
      = (Returned None, []))
  /\ (forall file_path bucket s3_key storage_class backoff_factor h,
      upload_to_s3 w file_path bucket s3_key storage_class 0 backoff_factor h
      = (Returned None, []))
  /\ falsy None = true
  /\ forall records idx h, exists es,
      main_loop w cfg total_files idx records h = (Returned tt, es)
      /\ runs es = [] /\ uploads es = [] /\ removes es = []
      /\ verdicts es = repeat FailedDownload (length records).
Proof.
  intros HR.
  split; [reflexivity |]. split; [reflexivity |]. split; [reflexivity |].
  induction records as [| record rest IH]; intros idx h.
  { exists []. repeat split; reflexivity. }
  destruct (parse_period_parsed w (period_str record) h)
    as (es0 & Hparse & Hr0 & Hs0 & Hu0 & Hd0 & Hp0).
  destruct (silent_verdicts _ Hp0) as [Hv0 _].
  cbn [main_loop].
  erewrite run_bind; cycle 1.
  { rewrite (loop_body_unfold w cfg idx total_files record h _ _ Hparse).
    cbv zeta. rewrite HR. reflexivity. }
  match goal with |- context [main_loop _ _ _ _ rest ?h'] =>
    destruct (IH (idx + 1) h') as (es & -> & Hr & Hu & Hd & Hv) end.
  eexists. split; [reflexivity |]. cbn [snd].
  rewrite !runs_app, !uploads_app, !removes_app, !verdicts_app.
  rewrite Hr0, Hu0, Hd0, Hv0, Hr, Hu, Hd, Hv.
  read_trace. repeat split; reflexivity.
Qed.

Lemma zero_retries_never_fetch_witness :
  exists es,
    main_loop fair_world (test_config 0 5) 2 1
              [row_A1 "2024年6月28日～2024年6月30日"; row_B2] []
    = (Returned tt, es)
    /\ runs es = [] /\ uploads es = [] /\ removes es = []
    /\ verdicts es = [FailedDownload; FailedDownload].
Proof.
  destruct (zero_retries_never_fetch fair_world (test_config 0 5) 2 eq_refl)
    as (_ & _ & _ & H).
  exact (H [row_A1 "2024年6月28日～2024年6月30日"; row_B2] 1 []).
Defined.

(** Two rejected attempts, then an accepted one: three calls, two sleeps. *)
Example upload_succeeds_on_third_attempt :
  exists es,
    upload_to_s3 (flaky_world 2) (py "./data/output/A1.zip") (py "bucket")
                 (py "A1.zip") (py "STANDARD") 3 5 []
    = (Returned (Some true), es)
    /\ length (uploads es) = 3%nat
    /\ sleeps es = [5; 10].
Proof. eexists. split; [reflexivity |]. split; reflexivity. Qed.

(** The configuration of the source tries once and never sleeps. *)
Example source_config_single_attempt :
  exists es,
    loop_body offline_world (source_config (py "secret")) 1 1
              (row_A1 "2024年6月28日～2024年6月30日") []
    = (Returned tt, es)
    /\ length (runs es) = 1%nat /\ sleeps es = []
    /\ verdicts es = [FailedDownload].
Proof. eexists. split; [reflexivity |]. repeat split; reflexivity. Qed.

(** ** The per-record pipeline *)

(** C6.  When, in a pass of the loop, [download_file] returns [True] and
    [upload_to_s3] returns a value that is not true ([False] after its retry
    budget or a non-retryable error), the pass ends normally, reports the
    failed upload, names the kept file in its warning and never calls
    [os.remove]. *)
Theorem upload_failure_keeps_local_file (w : World) (cfg : Config)
    (idx total_files : Z) (record : ManifestRow) (h : list event)
    (es1 es2 : list event) (upload_success : option bool) :
  let file_name :=
    file_name_of (delivery_id record) (parsed_period w (period_str record)) in
  let download_path := os_path_join (DOWNLOAD_DIR cfg) file_name in
  let pre1 := snd (parse_period w (period_str record) h)
              ++ [Print (StartDownload idx total_files file_name);
                  Log INFO (StartDownloadFrom idx total_files file_name
                                              (url record))] in
  let pre2 := pre1 ++ es1
              ++ [Print (StartUpload idx total_files file_name);
                  Log INFO (StartUploadKey idx total_files file_name file_name)] in
  download_file w (API_KEY cfg) (url record) download_path
                (RETRIES cfg) (BACKOFF_FACTOR cfg) (h ++ pre1)
  = (Returned (Some true), es1) ->
  upload_to_s3 w download_path (S3_BUCKET_NAME cfg) file_name
               (S3_STORAGE_CLASS cfg) (RETRIES cfg) (BACKOFF_FACTOR cfg)
               (h ++ pre2)
  = (Returned upload_success, es2) ->
  falsy upload_success = true ->
  let es := pre2 ++ es2 ++ [Print (UploadFailedKeepingFile download_path);
                            Log WARNING (UploadFailedKeepingFile download_path)] in
  loop_body w cfg idx total_files record h = (Returned tt, es)
  /\ removes es = []
  /\ verdicts es = [FailedUpload].
Proof.
  intros file_name download_path pre1 pre2 Hdl Hul Hfalsy es.
  destruct (parse_period_parsed w (period_str record) h)
    as (es0 & Hparse & Hr0 & Hs0 & Hu0 & Hd0 & Hp0).
  assert (Hpre1 : pre1 = es0 ++ [Print (StartDownload idx total_files file_name);
                                 Log INFO (StartDownloadFrom idx total_files
                                             file_name (url record))]).
  { unfold pre1. rewrite Hparse. reflexivity. }
  pose proof (download_attempts_frame w (API_KEY cfg) (url record) download_path
                (RETRIES cfg) (BACKOFF_FACTOR cfg)
                (py_range 1 (RETRIES cfg + 1)) (h ++ pre1)) as Hf1.
  fold (download_file w (API_KEY cfg) (url record) download_path
                      (RETRIES cfg) (BACKOFF_FACTOR cfg)) in Hf1.
  rewrite Hdl in Hf1. cbn [snd] in Hf1. destruct Hf1 as (_ & Hd1 & Hp1 & _).
  pose proof (upload_attempts_frame w download_path (S3_BUCKET_NAME cfg) file_name
                (S3_STORAGE_CLASS cfg) (RETRIES cfg) (BACKOFF_FACTOR cfg)
                (py_range 1 (RETRIES cfg + 1)) (h ++ pre2)) as Hf2.
  fold (upload_to_s3 w download_path (S3_BUCKET_NAME cfg) file_name
                     (S3_STORAGE_CLASS cfg) (RETRIES cfg) (BACKOFF_FACTOR cfg))
    in Hf2.
  rewrite Hul in Hf2. cbn [snd] in Hf2. destruct Hf2 as (_ & Hd2 & Hp2 & _).
  destruct (silent_verdicts _ Hp0) as [Hv0 _].
  destruct (silent_verdicts _ Hp1) as [Hv1 _].
  destruct (silent_verdicts _ Hp2) as [Hv2 _].
  split.
  - rewrite (loop_body_unfold w cfg idx total_files record h _ _ Hparse).
    cbv zeta. fold file_name. fold download_path. rewrite <- Hpre1.
    rewrite Hdl. cbn [falsy]. fold pre2. rewrite Hul, Hfalsy. reflexivity.
  - unfold es, pre2. rewrite Hpre1.
    rewrite !removes_app, !verdicts_app, Hd0, Hd1, Hd2, Hv0, Hv1, Hv2.
    split; reflexivity.
Qed.

Lemma upload_failure_keeps_local_file_witness :
  exists es,
    loop_body rejecting_world (test_config 2 5) 1 1
              (row_A1 "2024年6月28日～2024年6月30日") []
    = (Returned tt, es)
    /\ removes es = []
    /\ verdicts es = [FailedUpload].
Proof.
  eexists.
  apply (upload_failure_keeps_local_file rejecting_world (test_config 2 5) 1 1
           (row_A1 "2024年6月28日～2024年6月30日") [] _ _ (Some false)
           eq_refl eq_refl eq_refl).
Defined.

(** C7.  When, in a pass of the loop, [download_file] and [upload_to_s3]
    both return [True], the pass calls [os.remove] on the download path, once
    and after the upload.  If the removal succeeds the pass reports the file
    removed; if it raises [OSError] the pass only prints and logs a warning.
    In both cases the pass ends normally and reports neither a failed download
    nor a failed upload. *)
Theorem successful_transfer_removes_local_file (w : World) (cfg : Config)
    (idx total_files : Z) (record : ManifestRow) (h : list event)
    (es1 es2 : list event) :
  let file_name :=
    file_name_of (delivery_id record) (parsed_period w (period_str record)) in
  let download_path := os_path_join (DOWNLOAD_DIR cfg) file_name in
  let pre1 := snd (parse_period w (period_str record) h)
              ++ [Print (StartDownload idx total_files file_name);
                  Log INFO (StartDownloadFrom idx total_files file_name
                                              (url record))] in
  let pre2 := pre1 ++ es1
              ++ [Print (StartUpload idx total_files file_name);
                  Log INFO (StartUploadKey idx total_files file_name file_name)] in
  download_file w (API_KEY cfg) (url record) download_path
                (RETRIES cfg) (BACKOFF_FACTOR cfg) (h ++ pre1)
  = (Returned (Some true), es1) ->
  upload_to_s3 w download_path (S3_BUCKET_NAME cfg) file_name
               (S3_STORAGE_CLASS cfg) (RETRIES cfg) (BACKOFF_FACTOR cfg)
               (h ++ pre2)
  = (Returned (Some true), es2) ->
  let r := os_remove w (h ++ pre2 ++ es2) download_path in
  let report :=
    match r with
    | RemoveReturned =>
      [Print (LocalFileRemoved idx total_files download_path);
       Log INFO (LocalFileRemoved idx total_files download_path)]
    | RemoveRaisedOSError =>
      [Print (RemoveFailed download_path);
       Log WARNING (RemoveFailed download_path)]
    end in
  let es := pre2 ++ es2 ++ Remove download_path r :: report in
  loop_body w cfg idx total_files record h = (Returned tt, es)
  /\ removes es = [download_path]
  /\ verdicts es = match r with
                   | RemoveReturned => [Cleaned]
                   | RemoveRaisedOSError => [UploadedNotCleaned]
                   end
  /\ ~ In FailedDownload (verdicts es) /\ ~ In FailedUpload (verdicts es).
Proof.
  intros file_name download_path pre1 pre2 Hdl Hul r report es.
  destruct (parse_period_parsed w (period_str record) h)
    as (es0 & Hparse & Hr0 & Hs0 & Hu0 & Hd0 & Hp0).
  assert (Hpre1 : pre1 = es0 ++ [Print (StartDownload idx total_files file_name);
                                 Log INFO (StartDownloadFrom idx total_files
                                             file_name (url record))]).
  { unfold pre1. rewrite Hparse. reflexivity. }
  pose proof (download_attempts_frame w (API_KEY cfg) (url record) download_path
                (RETRIES cfg) (BACKOFF_FACTOR cfg)
                (py_range 1 (RETRIES cfg + 1)) (h ++ pre1)) as Hf1.
  fold (download_file w (API_KEY cfg) (url record) download_path
                      (RETRIES cfg) (BACKOFF_FACTOR cfg)) in Hf1.
  rewrite Hdl in Hf1. cbn [snd] in Hf1. destruct Hf1 as (_ & Hd1 & Hp1 & _).
  pose proof (upload_attempts_frame w download_path (S3_BUCKET_NAME cfg) file_name
                (S3_STORAGE_CLASS cfg) (RETRIES cfg) (BACKOFF_FACTOR cfg)
                (py_range 1 (RETRIES cfg + 1)) (h ++ pre2)) as Hf2.
  fold (upload_to_s3 w download_path (S3_BUCKET_NAME cfg) file_name
                     (S3_STORAGE_CLASS cfg) (RETRIES cfg) (BACKOFF_FACTOR cfg))
    in Hf2.
  rewrite Hul in Hf2. cbn [snd] in Hf2. destruct Hf2 as (_ & Hd2 & Hp2 & _).
  destruct (silent_verdicts _ Hp0) as [Hv0 _].
  destruct (silent_verdicts _ Hp1) as [Hv1 _].
  destruct (silent_verdicts _ Hp2) as [Hv2 _].
  assert (Hrun : loop_body w cfg idx total_files record h = (Returned tt, es)).
  { rewrite (loop_body_unfold w cfg idx total_files record h _ _ Hparse).
    cbv zeta. fold file_name. fold download_path. rewrite <- Hpre1.
    rewrite Hdl. cbn [falsy]. fold pre2. rewrite Hul. cbn [falsy].
    reflexivity. }
  assert (Hrm : removes es = [download_path]).
  { unfold es, pre2. rewrite Hpre1.
    rewrite !removes_app, Hd0, Hd1, Hd2. unfold report.
    destruct r; reflexivity. }
  assert (Hv : verdicts es = match r with
                             | RemoveReturned => [Cleaned]
                             | RemoveRaisedOSError => [UploadedNotCleaned]
                             end).
  { unfold es, pre2. rewrite Hpre1.
    rewrite !verdicts_app, Hv0, Hv1, Hv2. unfold report.
    destruct r; reflexivity. }
  repeat split; try assumption.
  - rewrite Hv. destruct r; intros [Hin | []]; discriminate Hin.
  - rewrite Hv. destruct r; intros [Hin | []]; discriminate Hin.
Qed.

Lemma successful_transfer_removes_local_file_witness :
  (exists es,
      loop_body fair_world (test_config 1 5) 1 1
                (row_A1 "2024年6月28日～2024年6月30日") []
      = (Returned tt, es)
      /\ removes es = [py "./data/output/A1_20240628-20240630.zip"]
      /\ verdicts es = [Cleaned])
  /\ (exists es,
      loop_body sticky_world (test_config 1 5) 1 1
                (row_A1 "2024年6月28日～2024年6月30日") []
      = (Returned tt, es)
      /\ removes es = [py "./data/output/A1_20240628-20240630.zip"]
      /\ verdicts es = [UploadedNotCleaned]).
Proof.
  split.
  - destruct (successful_transfer_removes_local_file fair_world (test_config 1 5)
                1 1 (row_A1 "2024年6月28日～2024年6月30日") [] _ _ eq_refl eq_refl)
      as (Hrun & Hrm & Hv & _).
    eexists. split; [exact Hrun |]. split; [exact Hrm | exact Hv].
  - destruct (successful_transfer_removes_local_file sticky_world (test_config 1 5)
                1 1 (row_A1 "2024年6月28日～2024年6月30日") [] _ _ eq_refl eq_refl)
      as (Hrun & Hrm & Hv & _).
    eexists. split; [exact Hrun |]. split; [exact Hrm | exact Hv].
Defined.

(** ** Records whose period cannot be formatted *)

(** [parse_period] reports a malformed period by returning [None], not by
    raising, so the [except ValueError] clause of [main] never runs: no pass
    of the loop ends with the verdict of a skipped record, and every pass
    announces a download under the name built from the parsed value, [None]
    included. *)
Lemma loop_body_never_skips (w : World) (cfg : Config) (idx total_files : Z)
    (record : ManifestRow) (h : list event) :
  let es := snd (loop_body w cfg idx total_files record h) in
  started es
  = [file_name_of (delivery_id record) (parsed_period w (period_str record))]
  /\ ~ In SkippedNoName (verdicts es).
Proof.
  pose proof (loop_body_report w cfg idx total_files record h) as H.
  cbv zeta in *. destruct H as (Hst & _ & _ & _ & Hv).
  split; [exact Hst |].
  destruct (fst (loop_body w cfg idx total_files record h)).
  - destruct Hv as (v & -> & Hne). intros [Hin | []]. congruence.
  - rewrite Hv. intros [].
Qed.

(** C1, at a record whose period names February 30th.  [parse_period] logs
    the error and returns [None]; the pass of the loop goes on: it names the
    file [A1_None.zip], fetches the URL into it, uploads it under that key and
    removes it. *)
Theorem unparsed_period_is_not_skipped :
  re_findall impossible_period
  = [(py "2024", py "2", py "30"); (py "2024", py "3", py "1")]
  /\ datetime_of_groups (py "2024", py "2", py "30") = None
  /\ parse_period fair_world impossible_period []
     = (Returned None, [Log ERROR (PeriodParseError impossible_period)])
  /\ exists es,
      loop_body fair_world (test_config 1 5) 1 1
                (row_A1 "2024年2月30日～2024年3月1日") []
      = (Returned tt, es)
      /\ started es = [py "A1_None.zip"]
      /\ runs es = [curl_command (py "secret") (py "https://x/file")
                                 (py "./data/output/A1_None.zip")]
      /\ uploads es = [(py "./data/output/A1_None.zip", py "bucket",
                        py "A1_None.zip", py "STANDARD")]
      /\ removes es = [py "./data/output/A1_None.zip"]
      /\ verdicts es = [Cleaned].
Proof.
  split; [reflexivity |]. split; [reflexivity |]. split; [reflexivity |].
  eexists. split; [reflexivity |]. repeat split; reflexivity.
Qed.

(** ** The storage key of the example row *)

Lemma parsed_docstring_period (w : World) :
  parsed_period w docstring_period = Some (py "20240628-20240630").
Proof.
  unfold parsed_period, parse_period.
  destruct (libc_pads_year w); reflexivity.
Qed.

(** C8, amended.  For the row with identifier A1, URL https://x/file and the
    period written as the source expects it, 2024年6月28日～2024年6月30日, the
    file name announced by the loop, which is also the key of every upload of
    that pass, is A1_20240628-20240630.zip. *)
Theorem example_row_storage_key (w : World) (cfg : Config) (idx total_files : Z)
    (expiration : str) (h : list event) :
  let record := mk_row (py "A1") docstring_period (py "https://x/file") expiration in
  let es := snd (loop_body w cfg idx total_files record h) in
  file_name_of (delivery_id record) (parsed_period w (period_str record))
  = py "A1_20240628-20240630.zip"
  /\ started es = [py "A1_20240628-20240630.zip"]
  /\ Forall (fun u => key_of u = py "A1_20240628-20240630.zip") (uploads es).
Proof.
  intros record es.
  pose proof (loop_body_report w cfg idx total_files record h) as H.
  cbv zeta in H. destruct H as (Hst & _ & Hu & _).
  assert (Hname : file_name_of (delivery_id record)
                               (parsed_period w (period_str record))
                  = py "A1_20240628-20240630.zip").
  { unfold record. cbn [delivery_id period_str].
    rewrite parsed_docstring_period. reflexivity. }
  rewrite Hname in Hst, Hu.
  split; [exact Hname |]. split; [exact Hst |].
  eapply Forall_impl; [| exact Hu]. intros u <-. reflexivity.
Qed.

(** C8 as stated fails: for the row whose period reads
    "2024-06-28 to 2024-06-30" the pattern matches nothing, and the name the
    loop builds, fetches into and uploads under is A1_None.zip. *)
Lemma iso_period_row_storage_key :
  re_findall iso_period = []
  /\ parsed_period fair_world iso_period = None
  /\ started (snd (loop_body fair_world (test_config 1 5) 1 1
                             (row_A1 "2024-06-28 to 2024-06-30") []))
     = [py "A1_None.zip"]
  /\ map key_of (uploads (snd (loop_body fair_world (test_config 1 5) 1 1
                                         (row_A1 "2024-06-28 to 2024-06-30") [])))
     = [py "A1_None.zip"]
  /\ py "A1_None.zip" <> py "A1_20240628-20240630.zip".
Proof.
  repeat split; try reflexivity. discriminate.
Qed.

(** ** The batch *)

Lemma main_loop_cons (w : World) (cfg : Config) (total_files idx : Z)
    (record : ManifestRow) (rest : list ManifestRow) (h : list event) :
  main_loop w cfg total_files idx (record :: rest) h
  = match loop_body w cfg idx total_files record h with
    | (Returned _, es) =>
      (fst (main_loop w cfg total_files (idx + 1) rest (h ++ es)),
       es ++ snd (main_loop w cfg total_files (idx + 1) rest (h ++ es)))
    | (Raised e, es) => (Raised e, es)
    end.
Proof.
  cbn [main_loop]. unfold bind.
  destruct (loop_body w cfg idx total_files record h) as [[[] | e] es];
    [| reflexivity].
  destruct (main_loop w cfg total_files (idx + 1) rest (h ++ es)). reflexivity.
Qed.



(** C4, at a batch of two records whose first upload raises an exception
    that [upload_to_s3] has no clause for (boto3's [S3UploadFailedError]):
    the exception leaves [main], the first record gets no verdict and the
    second record is never started.  The same kind of failure in the fetch
    ([subprocess.run] raising) is caught by [download_file], and there both
    records are attempted. *)
Theorem unhandled_upload_error_stops_the_batch :
  (exists es,
      main_loop s3_failing_world (test_config 1 5) 2 1
                [row_A1 "2024年6月28日～2024年6月30日"; row_B2] []
      = (Raised (OtherException "S3UploadFailedError"), es)
      /\ started es = [py "A1_20240628-20240630.zip"]
      /\ length (runs es) = 1%nat
      /\ verdicts es = [])
  /\ (exists es,
      main_loop (steady_world false RunRaised UploadReturned RemoveReturned
                              ReadCsvRaised)
                (test_config 1 5) 2 1
                [row_A1 "2024年6月28日～2024年6月30日"; row_B2] []
      = (Returned tt, es)
      /\ started es = [py "A1_20240628-20240630.zip"; py "B2_20240701-20240703.zip"]
      /\ verdicts es = [FailedDownload; FailedDownload]).
Proof.
  split; eexists; (split; [reflexivity |]); repeat split; reflexivity.
Qed.

(** ** A negative backoff factor *)



(** ** How many calls a batch can make *)

Lemma download_attempts_run_bound (w : World) (api_key url download_path : str)
    (retries backoff_factor : Z) (attempts : list Z) :
  forall h,
    (length (runs (snd (download_attempts w api_key url download_path retries
                                          backoff_factor attempts h)))
     <= length attempts)%nat.
Proof.
  induction attempts as [| a rest IH]; intros h; [apply Nat.le_refl |].
  rewrite download_attempt_unfold. cbv zeta.
  set (r := subprocess_run w _ _). clearbody r.
  assert (Hone : forall e1 e2 tail,
             runs tail = [] ->
             (length (runs (Log INFO (DownloadAttempt a retries url)
                              :: Run (curl_command api_key url download_path) r
                              :: Log e1 e2 :: tail))
              <= length (a :: rest))%nat).
  { intros e1 e2 tail Ht. read_trace. rewrite Ht. cbn [length]. lia. }
  destruct (run_failed r); [| apply Hone; reflexivity].
  destruct (a <? retries).
  - destruct (backoff_factor * a <? 0).
    + destruct r as [? [? |] |]; apply Hone; reflexivity.
    + cbn [snd].
      match goal with |- context [download_attempts _ _ _ _ _ _ rest ?h'] =>
        specialize (IH h') end.
      rewrite runs_app, length_app.
      replace (length (runs _)) with 1%nat
        by (destruct r as [? [? |] |]; reflexivity).
      cbn [length]. lia.
  - destruct r as [? [? |] |]; apply Hone; reflexivity.
Qed.

Lemma upload_attempts_call_bound (w : World)
    (file_path bucket s3_key storage_class : str) (retries backoff_factor : Z)
    (attempts : list Z) :
  forall h,
    (length (uploads (snd (upload_attempts w file_path bucket s3_key storage_class
                                           retries backoff_factor attempts h)))
     <= length attempts)%nat.
Proof.
  induction attempts as [| a rest IH]; intros h; [apply Nat.le_refl |].
  rewrite upload_attempt_unfold. cbv zeta.
  destruct (s3_upload_file w h file_path bucket s3_key storage_class) as [| e];
    [cbn; lia |].
  destruct e; try (cbn; lia).
  destruct (a <? retries); [| cbn; lia].
  destruct (backoff_factor * a <? 0); [cbn; lia |].
  cbn [snd]. rewrite uploads_app, length_app.
  match goal with |- context [upload_attempts _ _ _ _ _ _ _ rest ?h'] =>
    specialize (IH h') end.
  cbn [uploads flat_map app length]. cbn [length] in *. lia.
Qed.

Lemma loop_body_call_bound (w : World) (cfg : Config) (idx total_files : Z)
    (record : ManifestRow) (h : list event) :
  let es := snd (loop_body w cfg idx total_files record h) in
  (length (runs es) <= Z.to_nat (RETRIES cfg))%nat
  /\ (length (uploads es) <= Z.to_nat (RETRIES cfg))%nat
  /\ (length (removes es) <= 1)%nat.
Proof.
  destruct (parse_period_parsed w (period_str record) h)
    as (es0 & Hparse & Hr0 & Hs0 & Hu0 & Hd0 & Hp0).
  rewrite (loop_body_unfold w cfg idx total_files record h _ _ Hparse).
  cbv zeta.
  set (file_name := file_name_of (delivery_id record)
                                 (parsed_period w (period_str record))).
  set (download_path := os_path_join (DOWNLOAD_DIR cfg) file_name).
  set (pre1 := es0 ++ _).
  assert (Hlen : length (py_range 1 (RETRIES cfg + 1)) = Z.to_nat (RETRIES cfg))
    by (rewrite py_range_length; lia).
  pose proof (download_attempts_frame w (API_KEY cfg) (url record) download_path
                (RETRIES cfg) (BACKOFF_FACTOR cfg)
                (py_range 1 (RETRIES cfg + 1)) (h ++ pre1)) as Hf1.
  pose proof (download_attempts_run_bound w (API_KEY cfg) (url record)
                download_path (RETRIES cfg) (BACKOFF_FACTOR cfg)
                (py_range 1 (RETRIES cfg + 1)) (h ++ pre1)) as Hb1.
  rewrite Hlen in Hb1.
  fold (download_file w (API_KEY cfg) (url record) download_path
                      (RETRIES cfg) (BACKOFF_FACTOR cfg)) in Hf1, Hb1.
  destruct (download_file w (API_KEY cfg) (url record) download_path
                          (RETRIES cfg) (BACKOFF_FACTOR cfg) (h ++ pre1))
    as [[success | e] es1];
    cbn [snd] in Hf1, Hb1; destruct Hf1 as (Hu1 & Hd1 & _ & _).
  2:{ cbn [snd]. unfold pre1.
      rewrite !runs_app, !uploads_app, !removes_app, Hr0, Hu0, Hd0, Hu1, Hd1.
      cbn. lia. }
  destruct (falsy success).
  { cbn [snd]. unfold pre1.
    rewrite !runs_app, !uploads_app, !removes_app, Hr0, Hu0, Hd0, Hu1, Hd1.
    cbn. rewrite app_nil_r. lia. }
  set (pre2 := pre1 ++ es1 ++ _).
  assert (Hpre2 : runs pre2 = runs es1 /\ uploads pre2 = [] /\ removes pre2 = []).
  { unfold pre2, pre1.
    rewrite !runs_app, !uploads_app, !removes_app, Hr0, Hu0, Hd0, Hu1, Hd1.
    cbn. rewrite app_nil_r. repeat split; reflexivity. }
  destruct Hpre2 as (Hr2 & Hu2 & Hd2).
  pose proof (upload_attempts_frame w download_path (S3_BUCKET_NAME cfg) file_name
                (S3_STORAGE_CLASS cfg) (RETRIES cfg) (BACKOFF_FACTOR cfg)
                (py_range 1 (RETRIES cfg + 1)) (h ++ pre2)) as Hf2.
  pose proof (upload_attempts_call_bound w download_path (S3_BUCKET_NAME cfg)
                file_name (S3_STORAGE_CLASS cfg) (RETRIES cfg) (BACKOFF_FACTOR cfg)
                (py_range 1 (RETRIES cfg + 1)) (h ++ pre2)) as Hb2.
  rewrite Hlen in Hb2.
  fold (upload_to_s3 w download_path (S3_BUCKET_NAME cfg) file_name
                     (S3_STORAGE_CLASS cfg) (RETRIES cfg) (BACKOFF_FACTOR cfg))
    in Hf2, Hb2.
  destruct (upload_to_s3 w download_path (S3_BUCKET_NAME cfg) file_name
              (S3_STORAGE_CLASS cfg) (RETRIES cfg) (BACKOFF_FACTOR cfg)
              (h ++ pre2))
    as [[upload_success | e] es2];
    cbn [snd] in Hf2, Hb2; destruct Hf2 as (Hr3 & Hd3 & _ & _).
  2:{ cbn [snd]. rewrite !runs_app, !uploads_app, !removes_app.
      rewrite Hr2, Hu2, Hd2, Hr3, Hd3. cbn. rewrite app_nil_r. lia. }
  destruct (falsy upload_success).
  { cbn [snd]. rewrite !runs_app, !uploads_app, !removes_app.
    rewrite Hr2, Hu2, Hd2, Hr3, Hd3. cbn. rewrite !app_nil_r. lia. }
  cbn [snd]. rewrite !runs_app, !uploads_app, !removes_app.
  rewrite Hr2, Hu2, Hd2, Hr3, Hd3.
  destruct (os_remove w _ download_path); cbn; rewrite !app_nil_r; lia.
Qed.

(** X8.  In any world, whether the run ends normally or not, a batch of N
    records makes at most N*R [curl] runs, at most N*R [upload_file] calls and
    at most N [os.remove] calls, R being the retry count (none at all when R
    is zero or negative). *)
Theorem batch_call_bounds (w : World) (cfg : Config) (total_files : Z)
    (records : list ManifestRow) :
  forall idx h,
    let es := snd (main_loop w cfg total_files idx records h) in
    (length (runs es) <= length records * Z.to_nat (RETRIES cfg))%nat
    /\ (length (uploads es) <= length records * Z.to_nat (RETRIES cfg))%nat
    /\ (length (removes es) <= length records)%nat.
Proof.
  induction records as [| record rest IH]; intros idx h.
  { cbn. lia. }
  cbv zeta. rewrite main_loop_cons.
  pose proof (loop_body_call_bound w cfg idx total_files record h) as Hb.
  cbv zeta in Hb. destruct Hb as (Hr & Hu & Hd).
  destruct (loop_body w cfg idx total_files record h) as [[[] | e] es];
    cbn [snd] in *.
  - destruct (IH (idx + 1) (h ++ es)) as (Hr' & Hu' & Hd').
    rewrite runs_app, uploads_app, removes_app, !length_app.
    cbn [length]. lia.
  - cbn [length]. lia.
Qed.

(** ** The order of fetch, upload and removal *)

Lemma justified_mono (hist hist' : list event) (e : event) :
  incl hist hist' -> justified hist e -> justified hist' e.
Proof.
  intros Hincl. destruct e; cbn [justified]; try exact (fun H => H).
  - intros (argv & stderr & Hin & Ht). exists argv, stderr. auto.
  - intros (b & k & c & Hin). exists b, k, c. auto.
Qed.

Lemma safe_from_mono (es : list event) :
  forall hist hist', incl hist hist' -> safe_from hist es -> safe_from hist' es.
Proof.
  induction es as [| e rest IH]; intros hist hist' Hincl; [exact (fun H => H) |].
  cbn [safe_from]. intros [He Hrest]. split.
  - exact (justified_mono _ _ _ Hincl He).
  - apply (IH (hist ++ [e])); [| exact Hrest].
    apply incl_app; [apply incl_appl; exact Hincl | apply incl_appr, incl_refl].
Qed.

Lemma safe_from_app (a b : list event) :
  forall hist,
    safe_from hist a -> safe_from (hist ++ a) b -> safe_from hist (a ++ b).
Proof.
  induction a as [| e a IH]; intros hist Ha Hb.
  - rewrite app_nil_r in Hb. exact Hb.
  - cbn [app safe_from] in *. destruct Ha as [He Ha]. split; [exact He |].
    apply IH; [exact Ha |]. rewrite <- app_assoc. exact Hb.
Qed.

Lemma safe_from_quiet (es : list event) :
  forall hist, uploads es = [] -> removes es = [] -> safe_from hist es.
Proof.
  induction es as [| e rest IH]; intros hist Hu Hd; [exact I |].
  cbn [safe_from]. destruct e; cbn in Hu, Hd; try discriminate;
    (split; [exact I | apply IH; assumption]).
Qed.

Lemma safe_from_uploads (f b k c : str) (es : list event) :
  forall hist,
    (exists argv stderr,
        In (Run argv (Completed 0 stderr)) hist /\ target_of argv = f) ->
    Forall (eq (f, b, k, c)) (uploads es) -> removes es = [] ->
    safe_from hist es.
Proof.
  induction es as [| e rest IH]; intros hist Hrun Hu Hd; [exact I |].
  assert (Hnext : exists argv stderr,
             In (Run argv (Completed 0 stderr)) (hist ++ [e])
             /\ target_of argv = f).
  { destruct Hrun as (argv & stderr & Hin & Ht). exists argv, stderr.
    split; [apply in_or_app; left; exact Hin | exact Ht]. }
  cbn [safe_from]. destruct e; cbn in Hu, Hd; try discriminate;
    try (split; [exact I | apply IH; assumption]).
  inversion Hu as [| ? ? Heq Hrest]; subst. inversion Heq; subst.
  split; [exact Hrun | apply IH; assumption].
Qed.

Lemma download_true_has_run (w : World) (api_key url download_path : str)
    (retries backoff_factor : Z) (attempts : list Z) :
  forall h es,
    download_attempts w api_key url download_path retries backoff_factor attempts h
    = (Returned (Some true), es) ->
    exists stderr,
      In (Run (curl_command api_key url download_path) (Completed 0 stderr)) es.
Proof.
  induction attempts as [| a rest IH]; intros h es; [discriminate |].
  rewrite download_attempt_unfold. cbv zeta.
  set (r := subprocess_run w _ _). clearbody r.
  destruct (run_failed r) eqn:Ef.
  - destruct (a <? retries); [| discriminate].
    destruct (backoff_factor * a <? 0); [discriminate |].
    intros H. inversion H as [[Hfst Hsnd]].
    match type of Hfst with fst (download_attempts _ _ _ _ _ _ _ ?h') = _ =>
      destruct (download_attempts w api_key url download_path retries
                                  backoff_factor rest h') as [o es'] eqn:E end.
    cbn [fst snd] in *. subst o.
    destruct (IH _ _ E) as (stderr & Hin). exists stderr.
    do 5 right. exact Hin.
  - intros H. inversion H; subst.
    destruct r as [returncode stderr |]; [| discriminate].
    cbn [run_failed] in Ef. apply negb_false_iff, Z.eqb_eq in Ef. subst.
    exists stderr. right. left. reflexivity.
Qed.

Lemma upload_true_has_return (w : World)
    (file_path bucket s3_key storage_class : str) (retries backoff_factor : Z)
    (attempts : list Z) :
  forall h es,
    upload_attempts w file_path bucket s3_key storage_class retries backoff_factor
                    attempts h
    = (Returned (Some true), es) ->
    In (UploadFile file_path bucket s3_key storage_class UploadReturned) es.
Proof.
  induction attempts as [| a rest IH]; intros h es; [discriminate |].
  rewrite upload_attempt_unfold. cbv zeta.
  destruct (s3_upload_file w h file_path bucket s3_key storage_class) as [| e].
  { intros H. inversion H. left. reflexivity. }
  destruct e; try discriminate.
  destruct (a <? retries); [| discriminate].
  destruct (backoff_factor * a <? 0); [discriminate |].
  intros H. inversion H as [[Hfst Hsnd]].
  match type of Hfst with fst (upload_attempts _ _ _ _ _ _ _ _ ?h') = _ =>
    destruct (upload_attempts w file_path bucket s3_key storage_class retries
                              backoff_factor rest h') as [o es'] eqn:E end.
  cbn [fst snd] in *. subst o.
  do 4 right. exact (IH _ _ E).
Qed.

Lemma falsy_false (v : option bool) : falsy v = false -> v = Some true.
Proof. destruct v as [[|] |]; [reflexivity | discriminate | discriminate]. Qed.

Lemma loop_body_order (w : World) (cfg : Config) (idx total_files : Z)
    (record : ManifestRow) (h : list event) :
  safe_from [] (snd (loop_body w cfg idx total_files record h)).
Proof.
  destruct (parse_period_parsed w (period_str record) h)
    as (es0 & Hparse & Hr0 & Hs0 & Hu0 & Hd0 & Hp0).
  rewrite (loop_body_unfold w cfg idx total_files record h _ _ Hparse).
  cbv zeta.
  set (file_name := file_name_of (delivery_id record)
                                 (parsed_period w (period_str record))).
  set (download_path := os_path_join (DOWNLOAD_DIR cfg) file_name).
  set (pre1 := es0 ++ _).
  assert (Hq1 : uploads pre1 = [] /\ removes pre1 = []).
  { unfold pre1. rewrite uploads_app, removes_app, Hu0, Hd0. split; reflexivity. }
  destruct Hq1 as [Hu1' Hd1'].
  pose proof (download_attempts_frame w (API_KEY cfg) (url record) download_path
                (RETRIES cfg) (BACKOFF_FACTOR cfg)
                (py_range 1 (RETRIES cfg + 1)) (h ++ pre1)) as Hf1.
  pose proof (download_true_has_run w (API_KEY cfg) (url record) download_path
                (RETRIES cfg) (BACKOFF_FACTOR cfg)
                (py_range 1 (RETRIES cfg + 1)) (h ++ pre1)) as Hok1.
  fold (download_file w (API_KEY cfg) (url record) download_path
                      (RETRIES cfg) (BACKOFF_FACTOR cfg)) in Hf1, Hok1.
  destruct (download_file w (API_KEY cfg) (url record) download_path
                          (RETRIES cfg) (BACKOFF_FACTOR cfg) (h ++ pre1))
    as [[success | e] es1];
    cbn [snd] in Hf1; destruct Hf1 as (Hu1 & Hd1 & _ & _).
  2:{ cbn [snd]. apply safe_from_quiet.
      - rewrite uploads_app, Hu1', Hu1. reflexivity.
      - rewrite removes_app, Hd1', Hd1. reflexivity. }
  destruct (falsy success) eqn:Efalsy.
  { cbn [snd]. apply safe_from_quiet.
    - rewrite !uploads_app, Hu1', Hu1. reflexivity.
    - rewrite !removes_app, Hd1', Hd1. reflexivity. }
  apply falsy_false in Efalsy. subst success.
  destruct (Hok1 es1 eq_refl) as (stderr & Hrun).
  set (pre2 := pre1 ++ es1 ++ _).
  assert (Hq2 : uploads pre2 = [] /\ removes pre2 = []).
  { unfold pre2. rewrite !uploads_app, !removes_app, Hu1', Hu1, Hd1', Hd1.
    split; reflexivity. }
  destruct Hq2 as [Hu2 Hd2].
  assert (Hin2 : In (Run (curl_command (API_KEY cfg) (url record) download_path)
                         (Completed 0 stderr)) pre2).
  { unfold pre2. apply in_or_app. right. apply in_or_app. left. exact Hrun. }
  pose proof (upload_attempts_frame w download_path (S3_BUCKET_NAME cfg) file_name
                (S3_STORAGE_CLASS cfg) (RETRIES cfg) (BACKOFF_FACTOR cfg)
                (py_range 1 (RETRIES cfg + 1)) (h ++ pre2)) as Hf2.
  pose proof (upload_true_has_return w download_path (S3_BUCKET_NAME cfg) file_name
                (S3_STORAGE_CLASS cfg) (RETRIES cfg) (BACKOFF_FACTOR cfg)
                (py_range 1 (RETRIES cfg + 1)) (h ++ pre2)) as Hok2.
  fold (upload_to_s3 w download_path (S3_BUCKET_NAME cfg) file_name
                     (S3_STORAGE_CLASS cfg) (RETRIES cfg) (BACKOFF_FACTOR cfg))
    in Hf2, Hok2.
  assert (Hsafe2 : forall es2,
             Forall (eq (download_path, S3_BUCKET_NAME cfg, file_name,
                         S3_STORAGE_CLASS cfg)) (uploads es2) ->
             removes es2 = [] ->
             safe_from [] (pre2 ++ es2)).
  { intros es2 Hall Hnone. apply safe_from_app.
    - apply safe_from_quiet; assumption.
    - apply (safe_from_uploads download_path (S3_BUCKET_NAME cfg) file_name
               (S3_STORAGE_CLASS cfg)); [| exact Hall | exact Hnone].
      eexists. exists stderr. split; [exact Hin2 | reflexivity]. }
  destruct (upload_to_s3 w download_path (S3_BUCKET_NAME cfg) file_name
              (S3_STORAGE_CLASS cfg) (RETRIES cfg) (BACKOFF_FACTOR cfg)
              (h ++ pre2))
    as [[upload_success | e] es2];
    cbn [snd] in Hf2; destruct Hf2 as (_ & Hd3 & _ & Hu3).
  2:{ cbn [snd]. apply Hsafe2; assumption. }
  destruct (falsy upload_success) eqn:Efalsy.
  { cbn [snd]. rewrite app_assoc. apply safe_from_app.
    - apply Hsafe2; assumption.
    - apply safe_from_quiet; reflexivity. }
  apply falsy_false in Efalsy. subst upload_success.
  pose proof (Hok2 es2 eq_refl) as Hret.
  cbn [snd]. rewrite app_assoc. apply safe_from_app.
  - apply Hsafe2; assumption.
  - cbn [safe_from]. split.
    + exists (S3_BUCKET_NAME cfg), file_name, (S3_STORAGE_CLASS cfg).
      cbn [app]. apply in_or_app. right. exact Hret.
    + apply safe_from_quiet; destruct (os_remove w _ download_path); reflexivity.
Qed.

(** X9.  In any world, and whether the run ends normally or not, the trace
    of a batch keeps the order fetch, upload, removal: every [upload_file]
    call is for a file that an earlier [curl] run, exiting with 0, was told to
    write ([-o]), and every [os.remove] call is for a file that an earlier
    [upload_file] call uploaded and returned from. *)
Theorem batch_order (w : World) (cfg : Config) (total_files : Z)
    (records : list ManifestRow) :
  forall idx h, safe_from [] (snd (main_loop w cfg total_files idx records h)).
Proof.
  induction records as [| record rest IH]; intros idx h; [exact I |].
  rewrite main_loop_cons.
  pose proof (loop_body_order w cfg idx total_files record h) as Hpass.
  destruct (loop_body w cfg idx total_files record h) as [[[] | e] es];
    cbn [snd] in *; [| exact Hpass].
  apply safe_from_app; [exact Hpass |].
  apply (safe_from_mono _ []); [intros x [] | apply IH].
Qed.

(** ** A batch in which every call succeeds *)

Section EverythingWorks.

Variable w : World.
Variable cfg : Config.
Variable total_files : Z.

Hypothesis fetch_works : forall h argv, run_failed (subprocess_run w h argv) = false.
Hypothesis upload_works :
  forall h f b k c, s3_upload_file w h f b k c = UploadReturned.
Hypothesis remove_works : forall h p, os_remove w h p = RemoveReturned.
Hypothesis one_attempt : 1 <= RETRIES cfg.

Lemma loop_body_all_good (idx : Z) (record : ManifestRow) (h : list event) :
  exists es,
    loop_body w cfg idx total_files record h = (Returned tt, es)
    /\ verdicts es = [Cleaned]
    /\ runs es = [curl_command (API_KEY cfg) (url record)
                               (download_path_for w cfg record)]
    /\ uploads es = [(download_path_for w cfg record, S3_BUCKET_NAME cfg,
                      file_name_for w record, S3_STORAGE_CLASS cfg)]
    /\ removes es = [download_path_for w cfg record]
    /\ sleeps es = [].
Proof.
  destruct (parse_period_parsed w (period_str record) h)
    as (es0 & Hparse & Hr0 & Hs0 & Hu0 & Hd0 & Hp0).
  destruct (silent_verdicts _ Hp0) as [Hv0 _].
  rewrite (loop_body_unfold w cfg idx total_files record h _ _ Hparse).
  cbv zeta. unfold download_file, upload_to_s3.
  rewrite (py_range_cons 1 (RETRIES cfg + 1)) by lia.
  rewrite download_attempt_unfold. cbv zeta. rewrite fetch_works.
  cbn [falsy]. rewrite upload_attempt_unfold, upload_works. cbn [falsy].
  rewrite remove_works.
  eexists. split; [reflexivity |].
  rewrite !verdicts_app, !runs_app, !uploads_app, !removes_app, !sleeps_app.
  rewrite Hv0, Hr0, Hu0, Hd0, Hs0.
  repeat split; reflexivity.
Qed.

Lemma main_loop_all_good (records : list ManifestRow) :
  forall idx h,
    exists es,
      main_loop w cfg total_files idx records h = (Returned tt, es)
      /\ verdicts es = repeat Cleaned (length records)
      /\ runs es = map (fun r => curl_command (API_KEY cfg) (url r)
                                              (download_path_for w cfg r)) records
      /\ uploads es = map (fun r => (download_path_for w cfg r, S3_BUCKET_NAME cfg,
                                     file_name_for w r, S3_STORAGE_CLASS cfg))
                          records
      /\ removes es = map (download_path_for w cfg) records
      /\ sleeps es = [].
Proof.
  induction records as [| record rest IH]; intros idx h.
  { exists []. repeat split; reflexivity. }
  rewrite main_loop_cons.
  destruct (loop_body_all_good idx record h) as (es & -> & Hv & Hr & Hu & Hd & Hs).
  destruct (IH (idx + 1) (h ++ es)) as (es' & -> & Hv' & Hr' & Hu' & Hd' & Hs').
  eexists. split; [reflexivity |]. cbn [snd].
  rewrite verdicts_app, runs_app, uploads_app, removes_app, sleeps_app.
  rewrite Hv, Hr, Hu, Hd, Hs, Hv', Hr', Hu', Hd', Hs'.
  repeat split; reflexivity.
Qed.

End EverythingWorks.

(** X10.  When every [curl] run exits with 0, every [upload_file] call
    returns and every [os.remove] call succeeds, and the retry count is at
    least 1, the loop ends normally and handles the records one by one in
    manifest order: one [curl] run, one upload under the record's file name as
    key and one removal of the downloaded file per record, no sleep, and the
    verdict of a removed file for each. *)
Theorem batch_all_transferred (w : World) (cfg : Config) (total_files idx : Z)
    (records : list ManifestRow) (h : list event) :
  (forall h' argv, run_failed (subprocess_run w h' argv) = false) ->
  (forall h' f b k c, s3_upload_file w h' f b k c = UploadReturned) ->
  (forall h' p, os_remove w h' p = RemoveReturned) ->
  1 <= RETRIES cfg ->
  exists es,
    main_loop w cfg total_files idx records h = (Returned tt, es)
    /\ verdicts es = repeat Cleaned (length records)
    /\ runs es = map (fun r => curl_command (API_KEY cfg) (url r)
                                            (download_path_for w cfg r)) records
    /\ uploads es = map (fun r => (download_path_for w cfg r, S3_BUCKET_NAME cfg,
                                   file_name_for w r, S3_STORAGE_CLASS cfg))
                        records
    /\ removes es = map (download_path_for w cfg) records
    /\ sleeps es = [].
Proof.
  intros Hf Hu Hr HR. apply main_loop_all_good; assumption.
Qed.

Lemma batch_all_transferred_witness :
  exists es,
    main_loop fair_world (source_config (py "secret")) 2 1
              [row_A1 "2024年6月28日～2024年6月30日"; row_B2] []
    = (Returned tt, es)
    /\ verdicts es = [Cleaned; Cleaned]
    /\ removes es = [py "./data/output/A1_20240628-20240630.zip";
                     py "./data/output/B2_20240701-20240703.zip"]
    /\ sleeps es = [].
Proof.
  destruct (batch_all_transferred fair_world (source_config (py "secret")) 2 1
              [row_A1 "2024年6月28日～2024年6月30日"; row_B2] []
              (fun _ _ => eq_refl) (fun _ _ _ _ _ => eq_refl) (fun _ _ => eq_refl)
              ltac:(cbn; lia))
    as (es & Hrun & Hv & _ & _ & Hd & Hs).
  exists es. repeat split; assumption.
Defined.

(** ** The manifest reader *)

Lemma first_missing_has_columns (cols required : list str) :
  first_missing cols required = None
  <-> forallb (fun col => existsb (str_eqb col) cols) required = true.
Proof.
  induction required as [| col rest IH]; cbn [first_missing forallb].
  - split; reflexivity.
  - destruct (existsb (str_eqb col) cols); cbn [andb].
    + exact IH.
    + split; discriminate.
Qed.

Lemma notna_subset_required (d : dict) :
  forallb (notna d) dropna_subset = has_required_fields d.
Proof.
  unfold dropna_subset, has_required_fields, row_of_dict, get_str, notna.
  cbn [forallb].
  destruct (dict_get (py "配信履歴ID") d) as [[? |] |];
    destruct (dict_get (py "期間") d) as [[? |] |];
    destruct (dict_get (py "URL") d) as [[? |] |];
    destruct (dict_get (py "有効期限") d) as [[? |] |]; reflexivity.
Qed.

Lemma map_filter_through {A B : Type} (f : A -> B) (p : B -> bool) (l : list A) :
  map f (filter (fun x => p (f x)) l) = filter p (map f l).
Proof.
  induction l as [| x l IH]; [reflexivity |].
  cbn [filter map]. destruct (p (f x)); cbn [map]; rewrite IH; reflexivity.
Qed.

Lemma dropna_records (df : DataFrame) :
  to_dict_records (dropna dropna_subset df) = spec_records df.
Proof.
  unfold spec_records, to_dict_records, dropna. cbn [columns data].
  rewrite <- map_filter_through. f_equal.
  apply filter_ext. intros row. apply notna_subset_required.
Qed.





Lemma read_urls_from_csv_quiet (w : World) (csv_path : str) (h : list event) :
  let es := snd (read_urls_from_csv w csv_path h) in
  runs es = [] /\ uploads es = [] /\ removes es = [] /\ printed es = [].
Proof.
  unfold read_urls_from_csv. erewrite run_bind by reflexivity.
  destruct (pd_read_csv w h csv_path) as [df |];
    [destruct (first_missing (columns df) required_columns) |];
    repeat split; reflexivity.
Qed.

(** ** The expiration field and the progress lines *)

Lemma loop_body_ignores_expiration (w : World) (cfg : Config) (idx total_files : Z)
    (record : ManifestRow) (e : str) (h : list event) :
  loop_body w cfg idx total_files (with_expiration e record) h
  = loop_body w cfg idx total_files record h.
Proof.
  destruct (parse_period_parsed w (period_str record) h) as (es0 & Hparse & _).
  rewrite (loop_body_unfold w cfg idx total_files record h _ _ Hparse).
  rewrite (loop_body_unfold w cfg idx total_files (with_expiration e record) h
             _ _ Hparse).
  reflexivity.
Qed.

(** X11.  The expiration of a record is read (line 176) and never used:
    whatever the expirations of the records are replaced with, the loop makes
    the same calls with the same arguments, prints and logs the same lines and
    ends the same way. *)
Theorem expiration_is_ignored (w : World) (cfg : Config) (total_files : Z)
    (e : ManifestRow -> str) (records : list ManifestRow) :
  forall idx h,
    main_loop w cfg total_files idx
              (map (fun r => with_expiration (e r) r) records) h
    = main_loop w cfg total_files idx records h.
Proof.
  induction records as [| record rest IH]; intros idx h; [reflexivity |].
  cbn [map]. rewrite !main_loop_cons, loop_body_ignores_expiration.
  destruct (loop_body w cfg idx total_files record h) as [[[] | x] es];
    [| reflexivity].
  rewrite IH. reflexivity.
Qed.



(** ** A retry count below one *)

Lemma loop_body_without_attempts (w : World) (cfg : Config) (idx total_files : Z)
    (record : ManifestRow) (h : list event) :
  RETRIES cfg <= 0 ->
  exists es,
    loop_body w cfg idx total_files record h = (Returned tt, es)
    /\ runs es = [] /\ uploads es = [] /\ removes es = [] /\ sleeps es = []
    /\ verdicts es = [FailedDownload].
Proof.
  intros HR.
  destruct (parse_period_parsed w (period_str record) h)
    as (es0 & Hparse & Hr0 & Hs0 & Hu0 & Hd0 & Hp0).
  destruct (silent_verdicts _ Hp0) as [Hv0 _].
  rewrite (loop_body_unfold w cfg idx total_files record h _ _ Hparse).
  cbv zeta. unfold download_file. rewrite py_range_nil by lia.
  cbn [download_attempts ret falsy].
  eexists. split; [reflexivity |].
  rewrite !runs_app, !uploads_app, !removes_app, !sleeps_app, !verdicts_app.
  rewrite Hr0, Hs0, Hu0, Hd0, Hv0. repeat split; reflexivity.
Qed.

(** X18.  A retry count that is zero or negative makes no attempt at all:
    [download_file] and [upload_to_s3] return [None] with an empty trace, and
    the loop reports every record as a failed download without a single
    [curl] run, upload, removal or sleep. *)
Theorem no_attempts_below_one (w : World) (cfg : Config) (total_files : Z) :
  RETRIES cfg <= 0 ->
  (forall api_key url download_path backoff_factor h,
      download_file w api_key url download_path (RETRIES cfg) backoff_factor h
      = (Returned None, []))
  /\ (forall file_path bucket s3_key storage_class backoff_factor h,
      upload_to_s3 w file_path bucket s3_key storage_class (RETRIES cfg)
                   backoff_factor h
      = (Returned None, []))
  /\ forall records idx h, exists es,
      main_loop w cfg total_files idx records h = (Returned tt, es)
      /\ runs es = [] /\ uploads es = [] /\ removes es = [] /\ sleeps es = []
      /\ verdicts es = repeat FailedDownload (length records).
Proof.
  intros HR. split; [| split].
  - intros. unfold download_file. rewrite py_range_nil by lia. reflexivity.
  - intros. unfold upload_to_s3. rewrite py_range_nil by lia. reflexivity.
  - induction records as [| record rest IH]; intros idx h.
    { exists []. repeat split; reflexivity. }
    rewrite main_loop_cons.
    destruct (loop_body_without_attempts w cfg idx total_files record h HR)
      as (es & -> & Hr & Hu & Hd & Hs & Hv).
    destruct (IH (idx + 1) (h ++ es)) as (es' & -> & Hr' & Hu' & Hd' & Hs' & Hv').
    eexists. split; [reflexivity |]. cbn [snd].
    rewrite runs_app, uploads_app, removes_app, sleeps_app, verdicts_app.
    rewrite Hr, Hu, Hd, Hs, Hv, Hr', Hu', Hd', Hs', Hv'.
    repeat split; reflexivity.
Qed.

Lemma no_attempts_below_one_witness :
  exists es,
    main_loop fair_world (test_config (-3) 5) 2 1
              [row_A1 "2024年6月28日～2024年6月30日"; row_B2] []
    = (Returned tt, es)
    /\ runs es = [] /\ uploads es = [] /\ removes es = [] /\ sleeps es = []
    /\ verdicts es = [FailedDownload; FailedDownload].
Proof.
  destruct (no_attempts_below_one fair_world (test_config (-3) 5) 2
              ltac:(cbn; lia)) as (_ & _ & H).
  exact (H [row_A1 "2024年6月28日～2024年6月30日"; row_B2] 1 []).
Defined.

(** ** Every call belongs to a record of the manifest *)

(** X19.  In any world, whether the run ends normally or not, every call
    the loop makes is made for a record of the batch: each [curl] run fetches
    a record's URL, with the API key in its header, into that record's
    download path; each upload sends a record's download path to the
    configured bucket, under the record's file name as key, with the configured
    storage class; each removal is of a record's download path. *)
Theorem batch_calls_belong_to_records (w : World) (cfg : Config)
    (total_files : Z) (records : list ManifestRow) :
  forall idx h,
    let es := snd (main_loop w cfg total_files idx records h) in
    Forall (fun argv =>
              exists r, In r records
                        /\ argv = curl_command (API_KEY cfg) (url r)
                                               (download_path_for w cfg r))
           (runs es)
    /\ Forall (fun u =>
                 exists r, In r records
                           /\ u = (download_path_for w cfg r, S3_BUCKET_NAME cfg,
                                   file_name_for w r, S3_STORAGE_CLASS cfg))
              (uploads es)
    /\ Forall (fun p => exists r, In r records /\ p = download_path_for w cfg r)
              (removes es).
Proof.
  induction records as [| record rest IH]; intros idx h.
  { repeat split; constructor. }
  cbv zeta. rewrite main_loop_cons.
  pose proof (loop_body_report w cfg idx total_files record h) as Hrep.
  cbv zeta in Hrep. destruct Hrep as (_ & Hr & Hu & Hd & _).
  assert (Hr' : Forall (fun argv =>
              exists r, In r (record :: rest)
                        /\ argv = curl_command (API_KEY cfg) (url r)
                                               (download_path_for w cfg r))
           (runs (snd (loop_body w cfg idx total_files record h)))).
  { eapply Forall_impl; [| exact Hr]. intros argv <-.
    exists record. split; [left; reflexivity | reflexivity]. }
  assert (Hu' : Forall (fun u =>
                 exists r, In r (record :: rest)
                           /\ u = (download_path_for w cfg r, S3_BUCKET_NAME cfg,
                                   file_name_for w r, S3_STORAGE_CLASS cfg))
              (uploads (snd (loop_body w cfg idx total_files record h)))).
  { eapply Forall_impl; [| exact Hu]. intros u <-.
    exists record. split; [left; reflexivity | reflexivity]. }
  assert (Hd' : Forall (fun p => exists r, In r (record :: rest)
                                           /\ p = download_path_for w cfg r)
              (removes (snd (loop_body w cfg idx total_files record h)))).
  { eapply Forall_impl; [| exact Hd]. intros p <-.
    exists record. split; [left; reflexivity | reflexivity]. }
  destruct (loop_body w cfg idx total_files record h) as [[[] | e] es];
    cbn [snd] in *; [| repeat split; assumption].
  destruct (IH (idx + 1) (h ++ es)) as (Hr2 & Hu2 & Hd2).
  rewrite runs_app, uploads_app, removes_app.
  repeat split; apply Forall_app; (split; [assumption |]).
  - eapply Forall_impl; [| exact Hr2]. intros a (r & Hin & ->).
    exists r. split; [right; exact Hin | reflexivity].
  - eapply Forall_impl; [| exact Hu2]. intros a (r & Hin & ->).
    exists r. split; [right; exact Hin | reflexivity].
  - eapply Forall_impl; [| exact Hd2]. intros a (r & Hin & ->).
    exists r. split; [right; exact Hin | reflexivity].
Qed.

(** ** [main] *)




(** ** [main] from the manifest to the loop *)

Lemma existsb_str_eqb (col : str) (cols : list str) :
  existsb (str_eqb col) cols = true <-> In col cols.
Proof.
  rewrite existsb_exists. unfold str_eqb. split.
  - intros (x & Hin & Heq).
    destruct (list_eq_dec N.eq_dec col x); [subst; exact Hin | discriminate].
  - intros Hin. exists col. split; [exact Hin |].
    destruct (list_eq_dec N.eq_dec col col); [reflexivity | contradiction].
Qed.

Lemma first_missing_some (cols required : list str) (col : str) :
  first_missing cols required = Some col ->
  exists before after,
    required = before ++ col :: after
    /\ (forall c, In c before -> In c cols) /\ ~ In col cols.
Proof.
  induction required as [| c rest IH]; [discriminate |].
  cbn [first_missing]. destruct (existsb (str_eqb c) cols) eqn:E.
  - intros H. destruct (IH H) as (before & after & -> & Hall & Hnot).
    exists (c :: before), after. split; [reflexivity |]. split; [| exact Hnot].
    intros x [<- | Hx]; [apply existsb_str_eqb; exact E | exact (Hall x Hx)].
  - intros H. inversion H; subst. exists [], rest. split; [reflexivity |].
    split; [intros x [] |]. intros Hin. apply existsb_str_eqb in Hin. congruence.
Qed.

(** X15.  [read_urls_from_csv] calls [read_csv] once and logs at most one
    line.  When the read raises it logs the read error; when a required
    column is missing it logs the name of the first one missing, in the order
    配信履歴ID, データ名, 期間, URL, 有効期限, and does not look further; when all
    five are there it logs nothing, rows dropped or not. *)
Theorem read_urls_from_csv_log (w : World) (csv_path : str) (h : list event) :
  let r := pd_read_csv w h csv_path in
  let es := snd (read_urls_from_csv w csv_path h) in
  (r = ReadCsvRaised -> es = [ReadCsv csv_path r; Log ERROR CsvReadError])
  /\ (forall df, r = Frame df -> has_columns df required_columns = true ->
      es = [ReadCsv csv_path r])
  /\ (forall df, r = Frame df -> has_columns df required_columns = false ->
      exists before col after,
        required_columns = before ++ col :: after
        /\ (forall c, In c before -> In c (columns df))
        /\ ~ In col (columns df)
        /\ es = [ReadCsv csv_path r; Log ERROR (ColumnNotFound col)]).
Proof.
  cbv zeta. unfold read_urls_from_csv.
  erewrite run_bind by reflexivity. cbn [snd].
  destruct (pd_read_csv w h csv_path) as [df |] eqn:Ecsv.
  - split; [discriminate |].
    destruct (first_missing (columns df) required_columns) as [col |] eqn:Em.
    + split.
      * intros df' Hdf' Hcols. inversion Hdf'; subst df'.
        apply first_missing_has_columns in Hcols. congruence.
      * intros df' Hdf' _. inversion Hdf'; subst df'.
        destruct (first_missing_some _ _ _ Em) as (before & after & Hreq & Hall & Hnot).
        exists before, col, after. repeat split; assumption.
    + split; [intros; reflexivity |].
      intros df' Hdf' Hcols. inversion Hdf'; subst df'.
      apply first_missing_has_columns in Em. unfold has_columns in Hcols.
      congruence.
  - split; [reflexivity |]. split; discriminate.
Qed.

Lemma read_urls_from_csv_log_witness :
  snd (read_urls_from_csv (csv_world (Frame frame_without_url)) (py "manifest.csv") [])
  = [ReadCsv (py "manifest.csv") (Frame frame_without_url);
     Log ERROR (ColumnNotFound (py "URL"))].
Proof.
  destruct (read_urls_from_csv_log (csv_world (Frame frame_without_url))
              (py "manifest.csv") []) as (_ & _ & H).
  destruct (H frame_without_url eq_refl eq_refl)
    as (before & col & after & _ & _ & _ & Hes).
  reflexivity.
Defined.

(** X12.  When the download directory exists and the manifest cannot be
    read, lacks a required column or has no complete row, [main] prints and
    logs that there is nothing to process and returns: no [curl] run, no
    upload, no removal, and no other line on standard output. *)
Theorem main_nothing_to_do (w : World) (cfg : Config) (h : list event) :
  os_path_exists w h (DOWNLOAD_DIR cfg) = true ->
  match pd_read_csv w (h ++ [PathExists (DOWNLOAD_DIR cfg) true])
                    (CSV_FILE_PATH cfg) with
  | ReadCsvRaised => True
  | Frame df => has_columns df required_columns = false \/ spec_records df = []
  end ->
  exists es,
    main w cfg h = (Returned tt, es)
    /\ runs es = [] /\ uploads es = [] /\ removes es = []
    /\ printed es = [NoUrlsToProcess]
    /\ In (Log INFO NoUrlsToProcess) es.
Proof.
  intros Hdir Hcsv.
  set (h1 := h ++ [PathExists (DOWNLOAD_DIR cfg) true]) in *.
  assert (Hread : exists es0,
             read_urls_from_csv w (CSV_FILE_PATH cfg) h1 = (Returned [], es0)
             /\ runs es0 = [] /\ uploads es0 = [] /\ removes es0 = []
             /\ printed es0 = []).
  { pose proof (read_urls_from_csv_quiet w (CSV_FILE_PATH cfg) h1) as Hq.
    cbv zeta in Hq.
    destruct (read_urls_from_csv w (CSV_FILE_PATH cfg) h1) as [o es0] eqn:Hrun.
    exists es0. split; [| exact Hq]. f_equal.
    revert Hrun. unfold read_urls_from_csv.
    erewrite run_bind by reflexivity.
    destruct (pd_read_csv w h1 (CSV_FILE_PATH cfg)) as [df |].
    - destruct (first_missing (columns df) required_columns) as [col |] eqn:Em.
      + intros H. inversion H. reflexivity.
      + apply first_missing_has_columns in Em. fold (has_columns df required_columns) in Em.
        destruct Hcsv as [Hcsv | Hcsv]; [congruence |].
        rewrite dropna_records, Hcsv. intros H. inversion H. reflexivity.
    - intros H. inversion H. reflexivity. }
  destruct Hread as (es0 & Hread & Hr & Hu & Hd & Hp).
  unfold main.
  erewrite run_bind by (unfold path_exists; rewrite Hdir; reflexivity).
  cbn [fst snd]. erewrite run_bind by reflexivity.
  rewrite app_nil_r. fold h1. erewrite run_bind by exact Hread.
  eexists. split; [reflexivity |]. cbn [fst snd].
  rewrite !runs_app, !uploads_app, !removes_app, !printed_app, Hr, Hu, Hd, Hp.
  repeat split; try reflexivity.
  apply in_or_app. right. apply in_or_app. right. apply in_or_app. right.
  right. left. reflexivity.
Qed.

Lemma main_nothing_to_do_witness :
  exists es,
    main (csv_world (Frame frame_of_blanks)) (test_config 1 5) []
    = (Returned tt, es)
    /\ runs es = [] /\ uploads es = [] /\ removes es = []
    /\ printed es = [NoUrlsToProcess]
    /\ In (Log INFO NoUrlsToProcess) es.
Proof.
  apply (main_nothing_to_do (csv_world (Frame frame_of_blanks)) (test_config 1 5) []
           eq_refl).
  right. reflexivity.
Defined.



Example main_numbers_the_complete_rows :
  announced (snd (main (csv_world (Frame sample_frame)) (test_config 1 5) []))
  = [(1, 2, py "A1_20240628-20240630.zip"); (2, 2, py "A3_20240701-20240703.zip")].
Proof. reflexivity. Qed.

(** ** The directory and the manifest are dealt with once, at the start *)

Lemma download_attempts_no_setup (w : World) (api_key url download_path : str)
    (retries backoff_factor : Z) (attempts : list Z) :
  forall h,
    setup_calls (snd (download_attempts w api_key url download_path retries
                                        backoff_factor attempts h)) = [].
Proof.
  induction attempts as [| a rest IH]; intros h; [reflexivity |].
  rewrite download_attempt_unfold. cbv zeta.
  set (r := subprocess_run w _ _). clearbody r.
  destruct (run_failed r); [| reflexivity].
  destruct (a <? retries).
  - destruct (backoff_factor * a <? 0).
    + destruct r as [? [? |] |]; reflexivity.
    + cbn [snd]. rewrite setup_calls_app, IH.
      destruct r as [? [? |] |]; reflexivity.
  - destruct r as [? [? |] |]; reflexivity.
Qed.

Lemma upload_attempts_no_setup (w : World)
    (file_path bucket s3_key storage_class : str) (retries backoff_factor : Z)
    (attempts : list Z) :
  forall h,
    setup_calls (snd (upload_attempts w file_path bucket s3_key storage_class
                                      retries backoff_factor attempts h)) = [].
Proof.
  induction attempts as [| a rest IH]; intros h; [reflexivity |].
  rewrite upload_attempt_unfold. cbv zeta.
  destruct (s3_upload_file w h file_path bucket s3_key storage_class) as [| e];
    [reflexivity |].
  destruct e; try reflexivity.
  destruct (a <? retries); [| reflexivity].
  destruct (backoff_factor * a <? 0); [reflexivity |].
  cbn [snd]. rewrite setup_calls_app, IH. reflexivity.
Qed.

Lemma parse_period_no_setup (w : World) (s : str) (h : list event) :
  setup_calls (snd (parse_period w s h)) = [].
Proof.
  unfold parse_period.
  destruct (re_findall s) as [| g0 [| g1 [| g2 rest]]]; try reflexivity.
  destruct (datetime_of_groups g0), (datetime_of_groups g1); reflexivity.
Qed.

Lemma loop_body_no_setup (w : World) (cfg : Config) (idx total_files : Z)
    (record : ManifestRow) (h : list event) :
  setup_calls (snd (loop_body w cfg idx total_files record h)) = [].
Proof.
  destruct (parse_period_parsed w (period_str record) h) as (es0 & Hparse & _).
  pose proof (parse_period_no_setup w (period_str record) h) as H0.
  rewrite Hparse in H0. cbn [snd] in H0.
  rewrite (loop_body_unfold w cfg idx total_files record h _ _ Hparse).
  cbv zeta.
  match goal with |- context [download_file _ ?k ?u ?p ?r ?b ?h'] =>
    pose proof (download_attempts_no_setup w k u p r b (py_range 1 (r + 1)) h') as H1;
    fold (download_file w k u p r b) in H1;
    destruct (download_file w k u p r b h') as [[success | x] es1] end;
    cbn [snd] in H1.
  2:{ cbn [snd]. rewrite !setup_calls_app, H0, H1. reflexivity. }
  destruct (falsy success).
  { cbn [snd]. rewrite !setup_calls_app, H0, H1. reflexivity. }
  match goal with |- context [upload_to_s3 _ ?f ?b ?k ?c ?r ?bf ?h'] =>
    pose proof (upload_attempts_no_setup w f b k c r bf (py_range 1 (r + 1)) h') as H2;
    fold (upload_to_s3 w f b k c r bf) in H2;
    destruct (upload_to_s3 w f b k c r bf h') as [[upload_success | x] es2] end;
    cbn [snd] in H2.
  2:{ cbn [snd]. rewrite !setup_calls_app, H0, H1, H2. reflexivity. }
  destruct (falsy upload_success).
  { cbn [snd]. rewrite !setup_calls_app, H0, H1, H2. reflexivity. }
  cbn [snd]. rewrite !setup_calls_app, H0, H1, H2.
  match goal with |- context [os_remove w ?h' ?p] => destruct (os_remove w h' p) end;
    reflexivity.
Qed.

Lemma main_loop_no_setup (w : World) (cfg : Config) (total_files : Z)
    (records : list ManifestRow) :
  forall idx h, setup_calls (snd (main_loop w cfg total_files idx records h)) = [].
Proof.
  induction records as [| record rest IH]; intros idx h; [reflexivity |].
  rewrite main_loop_cons.
  pose proof (loop_body_no_setup w cfg idx total_files record h) as Hpass.
  destruct (loop_body w cfg idx total_files record h) as [[[] | e] es];
    cbn [snd] in *; [| exact Hpass].
  rewrite setup_calls_app, Hpass, IH. reflexivity.
Qed.

Lemma read_urls_from_csv_setup (w : World) (csv_path : str) (h : list event) :
  exists records es,
    read_urls_from_csv w csv_path h = (Returned records, es)
    /\ setup_calls es = [ReadCsv csv_path (pd_read_csv w h csv_path)].
Proof.
  unfold read_urls_from_csv. erewrite run_bind by reflexivity.
  destruct (pd_read_csv w h csv_path) as [df |];
    [destruct (first_missing (columns df) required_columns) |];
    eexists; eexists; split; reflexivity.
Qed.

Lemma main_after_directory (w : World) (cfg : Config) (h : list event) :
  exists o es,
    (records <- read_urls_from_csv w (CSV_FILE_PATH cfg) ;;
     match records with
     | [] => print NoUrlsToProcess ;; logging INFO NoUrlsToProcess
     | _ =>
       let total_files := Z.of_nat (length records) in
       print (FileCount total_files) ;;
       logging INFO (FileCount total_files) ;;
       match rows_of_dicts records with
       | Some rows => main_loop w cfg total_files 1 rows
       | None => raise KeyError
       end
     end) h = (o, es)
    /\ setup_calls es
       = [ReadCsv (CSV_FILE_PATH cfg) (pd_read_csv w h (CSV_FILE_PATH cfg))].
Proof.
  destruct (read_urls_from_csv_setup w (CSV_FILE_PATH cfg) h)
    as (records & es0 & Hread & Hsetup).
  erewrite run_bind by exact Hread.
  destruct records as [| d rest].
  - eexists; eexists. split; [reflexivity |].
    cbn [snd]. rewrite setup_calls_app, Hsetup. reflexivity.
  - cbv zeta. unfold print, logging. rewrite !run_emit.
    destruct (rows_of_dicts (d :: rest)) as [rows |].
    + eexists; eexists. split; [reflexivity |]. cbn [snd].
      rewrite setup_calls_app, Hsetup.
      change (?a :: ?b :: ?tail) with ([a; b] ++ tail).
      rewrite setup_calls_app, main_loop_no_setup. reflexivity.
    + eexists; eexists. split; [reflexivity |]. cbn [snd].
      rewrite setup_calls_app, Hsetup. reflexivity.
Qed.

(** X14.  In any world and for any manifest, [main] asks once whether the
    download directory exists, creates it only when the answer is no, and
    reads the manifest once, before any record is handled; the loop itself
    never touches the directory or the manifest.  When the directory is
    missing and cannot be created, [main] raises [OSError] at once: the
    manifest is not read and nothing is fetched. *)
Theorem main_setup_calls (w : World) (cfg : Config) (h : list event) :
  let dir := DOWNLOAD_DIR cfg in
  let es := snd (main w cfg h) in
  if os_path_exists w h dir then
    exists r, setup_calls es = [PathExists dir true; ReadCsv (CSV_FILE_PATH cfg) r]
  else if os_makedirs w (h ++ [PathExists dir false]) dir then
    exists r, setup_calls es = [PathExists dir false; MakeDirs dir true;
                                ReadCsv (CSV_FILE_PATH cfg) r]
  else
    main w cfg h = (Raised OSError, [PathExists dir false; MakeDirs dir false]).
Proof.
  cbv zeta. unfold main.
  destruct (os_path_exists w h (DOWNLOAD_DIR cfg)) eqn:Edir.
  - erewrite run_bind by (unfold path_exists; rewrite Edir; reflexivity).
    cbn [fst snd]. erewrite run_bind by reflexivity.
    rewrite app_nil_r.
    destruct (main_after_directory w cfg (h ++ [PathExists (DOWNLOAD_DIR cfg) true]))
      as (o & es & Heq & Hsetup).
    cbv beta zeta. cbv beta zeta in Heq. rewrite Heq.
    eexists. cbn [fst snd]. rewrite !setup_calls_app, Hsetup. reflexivity.
  - erewrite run_bind by (unfold path_exists; rewrite Edir; reflexivity).
    cbn [fst snd].
    destruct (os_makedirs w (h ++ [PathExists (DOWNLOAD_DIR cfg) false])
                          (DOWNLOAD_DIR cfg)) eqn:Emk.
    + erewrite run_bind; cycle 1.
      { erewrite run_bind by (unfold makedirs; rewrite Emk; reflexivity).
        reflexivity. }
      cbv beta zeta.
      match goal with |- context [bind ?m ?f ?h'] =>
        destruct (main_after_directory w cfg h') as (o & es & Heq & Hsetup) end.
      cbv beta zeta in Heq. rewrite Heq.
      eexists. cbn [fst snd]. rewrite !setup_calls_app, Hsetup. reflexivity.
    + erewrite run_bind_raised; [reflexivity |].
      erewrite run_bind_raised; [reflexivity |].
      unfold makedirs. rewrite Emk. reflexivity.
Qed.

Lemma main_setup_calls_witness :
  main readonly_world (test_config 1 5) []
  = (Raised OSError, [PathExists (py "./data/output/") false;
                      MakeDirs (py "./data/output/") false]).
Proof. exact (main_setup_calls readonly_world (test_config 1 5) []). Defined.

(** ** Looking a column up in a record *)

Lemma dict_get_to_dict (cols : list str) :
  forall (row : list cell) (i : nat) (col : str) (v : cell),
    NoDup cols ->
    nth_error cols i = Some col -> nth_error row i = Some v ->
    dict_get col (to_dict cols row) = Some v.
Proof.
  unfold to_dict. induction cols as [| c cols IH]; intros row i col v Hnd Hc Hv.
  - destruct i; discriminate.
  - destruct row as [| x row]; [destruct i; discriminate |].
    inversion Hnd as [| ? ? Hnotin Hnd']; subst.
    cbn [combine dict_get]. destruct i as [| i].
    + cbn in Hc, Hv. inversion Hc; inversion Hv; subst.
      unfold str_eqb. destruct (list_eq_dec N.eq_dec col col);
        [reflexivity | contradiction].
    + cbn in Hc, Hv. unfold str_eqb.
      destruct (list_eq_dec N.eq_dec c col) as [-> | Hne].
      * exfalso. apply Hnotin. exact (nth_error_In _ _ Hc).
      * exact (IH row i col v Hnd' Hc Hv).
Qed.

(** X16.  In a frame whose column labels are distinct, the record made of a
    row gives back, under each column name, the cell of that column in the
    row; so the identifier, period, URL and expiration the loop reads from a
    returned record are the cells of those four columns, wherever the columns
    stand in the manifest. *)
Theorem record_fields_are_row_cells (cols : list str) (row : list cell)
    (i_id i_period i_url i_exp : nat) (id period url_ exp : str) :
  NoDup cols ->
  nth_error cols i_id = Some (py "配信履歴ID") -> nth_error row i_id = Some (Some id) ->
  nth_error cols i_period = Some (py "期間") ->
  nth_error row i_period = Some (Some period) ->
  nth_error cols i_url = Some (py "URL") -> nth_error row i_url = Some (Some url_) ->
  nth_error cols i_exp = Some (py "有効期限") -> nth_error row i_exp = Some (Some exp) ->
  row_of_dict (to_dict cols row) = Some (mk_row id period url_ exp).
Proof.
  intros Hnd Hc1 Hv1 Hc2 Hv2 Hc3 Hv3 Hc4 Hv4.
  unfold row_of_dict, get_str.
  rewrite (dict_get_to_dict cols row i_id _ _ Hnd Hc1 Hv1).
  rewrite (dict_get_to_dict cols row i_period _ _ Hnd Hc2 Hv2).
  rewrite (dict_get_to_dict cols row i_url _ _ Hnd Hc3 Hv3).
  rewrite (dict_get_to_dict cols row i_exp _ _ Hnd Hc4 Hv4).
  reflexivity.
Qed.

Lemma record_fields_are_row_cells_witness :
  row_of_dict
    (to_dict [py "URL"; py "有効期限"; py "備考"; py "配信履歴ID"; py "期間"]
             [Some (py "https://x/file"); Some (py "2024-07-31"); None;
              Some (py "A1"); Some (py "2024年6月28日～2024年6月30日")])
  = Some (mk_row (py "A1") (py "2024年6月28日～2024年6月30日")
                 (py "https://x/file") (py "2024-07-31")).
Proof.
  apply (record_fields_are_row_cells _ _ 3 4 0 1); try reflexivity.
  repeat constructor; cbn; intuition discriminate.
Defined.
